(** * Market & Trend Research Agent: the research pipeline

    A shallow embedding of [research_agent.py] (class [ResearchAgent]) and
    the properties of its pipeline: query planning, per-query search with
    local recovery, content normalisation, LLM analysis with local recovery,
    and the two report forms.

    Python [str] values are modelled as [string]s holding the UTF-8 encoding
    of the text; the operations that Python defines on code points
    ([str.strip], slicing) are written on that encoding.  Python [dict]s are
    [gmap]s, [int]s are [Z] or [nat] (lengths and indices), [float]s are
    binary64 [float]s.  Effects (logging, console output, provider calls, the
    clock, file writes) are threaded through a trace of events; a raised
    exception is a result of the computation. *)

From Stdlib Require Import ZArith NArith Ascii String DecimalString Lia.
From Stdlib Require Import PrimFloat.
From stdpp Require Import base option list gmap strings.

Local Open Scope Z_scope.

(** ** Python string primitives *)

Module Py.

(** The one-character string [chr(n)] for an ASCII [n]. *)
Definition chr (n : nat) : string := String (ascii_of_nat n) "".

(** ["\n"]. *)
Definition LF : string := chr 10.

(** [str(n)] for an [int]: decimal digits, a leading minus sign when
    negative. *)
Definition str_of_Z (z : Z) : string := NilZero.string_of_int (Z.to_int z).
Definition str_of_nat (n : nat) : string := NilZero.string_of_uint (Nat.to_uint n).

(** [sep.join(l)]. *)
Definition join (sep : string) (l : list string) : string := String.concat sep l.

(** [s * n]. *)
Fixpoint repeat_str (s : string) (n : nat) : string :=
  match n with
  | O => ""
  | S k => s +:+ repeat_str s k
  end.

(** [c in s] for a single byte [c]. *)
Fixpoint has_byte (c : ascii) (s : string) : bool :=
  match s with
  | "" => false
  | String a r => Ascii.eqb a c || has_byte c r
  end.

(** UTF-8 encoding of one code point. *)
Definition byte_of_N (n : N) : ascii := ascii_of_N n.

Definition utf8_encode (cp : N) : string :=
  let cont (n : N) := byte_of_N (N.lor 128 (N.land n 63)) in
  if (cp <? 128)%N then String (byte_of_N cp) ""
  else if (cp <? 2048)%N then
    String (byte_of_N (N.lor 192 (N.shiftr cp 6))) (String (cont cp) "")
  else if (cp <? 65536)%N then
    String (byte_of_N (N.lor 224 (N.shiftr cp 12)))
      (String (cont (N.shiftr cp 6)) (String (cont cp) ""))
  else
    String (byte_of_N (N.lor 240 (N.shiftr cp 18)))
      (String (cont (N.shiftr cp 12))
         (String (cont (N.shiftr cp 6)) (String (cont cp) ""))).

(** The code points [c] with [chr(c).isspace()]: what [str.strip()]
    removes when called without argument. *)
Definition whitespace : list N :=
  [9; 10; 11; 12; 13; 28; 29; 30; 31; 32; 133; 160; 5760;
   8192; 8193; 8194; 8195; 8196; 8197; 8198; 8199; 8200; 8201; 8202;
   8232; 8233; 8239; 8287; 12288]%N.

Definition whitespace_utf8 : list string :=
  Eval vm_compute in map utf8_encode whitespace.

(** [strip_prefix p s] is [Some r] when [s = p + r]. *)
Fixpoint strip_prefix (p s : string) : option string :=
  match p, s with
  | "", _ => Some s
  | String a p', String b s' => if Ascii.eqb a b then strip_prefix p' s' else None
  | String _ _, "" => None
  end.

(** Removes one leading word of [table] from [s], if there is one. *)
Fixpoint drop_one (table : list string) (s : string) : option string :=
  match table with
  | [] => None
  | w :: table' =>
      match strip_prefix w s with
      | Some r => Some r
      | None => drop_one table' s
      end
  end.

(** Removes leading words of [table] as long as there are some; at most
    [n] of them. *)
Fixpoint drop_while (table : list string) (n : nat) (s : string) : string :=
  match n with
  | O => s
  | S k =>
      match drop_one table s with
      | Some r => drop_while table k r
      | None => s
      end
  end.

(** [s.lstrip()], [s.rstrip()], [s.strip()].  A string of [n] bytes has at
    most [n] leading characters. *)
Definition lstrip (s : string) : string :=
  drop_while whitespace_utf8 (String.length s) s.

Definition rstrip (s : string) : string :=
  String.rev
    (drop_while (map String.rev whitespace_utf8) (String.length s) (String.rev s)).

Definition strip (s : string) : string := rstrip (lstrip s).

(** A UTF-8 continuation byte, [10xxxxxx]. *)
Definition is_continuation (c : ascii) : bool :=
  let n := N_of_ascii c in ((128 <=? n) && (n <? 192))%N.

(** [s[:n]]: the first [n] characters of [s]. *)
Fixpoint slice_to (n : nat) (s : string) : string :=
  match s with
  | "" => ""
  | String c r =>
      if is_continuation c then String c (slice_to n r)
      else match n with
           | O => ""
           | S k => String c (slice_to k r)
           end
  end.

End Py.

Import Py.

(** ** Data model *)

(** [SearchResult]: a single search result from Tavily. *)
Record SearchResult : Type := mkSearchResult {
  title : string;
  url : string;
  content : string;
  score : float
}.

(** Values held by a free-form [dict] and by the data handed to
    [json.dump]. *)
#[warnings="-register-all"]
Inductive PyObj : Type :=
| PStr (s : string)
| PInt (z : Z)
| PFloat (f : float)
| PList (l : list PyObj)
| PDict (d : gmap string PyObj).

(** [ResearchData]: all research data collected during the analysis.  The
    lists, [analysis] and [raw_data] default to empty. *)
Record ResearchData : Type := mkResearchData {
  topic : string;
  timestamp : string;
  trend_results : list SearchResult;
  problem_results : list SearchResult;
  question_results : list SearchResult;
  analysis : string;
  raw_data : gmap string PyObj
}.

Definition new_ResearchData (topic timestamp : string) : ResearchData :=
  mkResearchData topic timestamp [] [] [] "" ∅.

(** Attribute assignment [data.f = v]. *)
Definition set_trend_results (v : list SearchResult) (d : ResearchData) : ResearchData :=
  mkResearchData (topic d) (timestamp d) v (problem_results d) (question_results d)
    (analysis d) (raw_data d).

Definition set_problem_results (v : list SearchResult) (d : ResearchData) : ResearchData :=
  mkResearchData (topic d) (timestamp d) (trend_results d) v (question_results d)
    (analysis d) (raw_data d).

Definition set_question_results (v : list SearchResult) (d : ResearchData) : ResearchData :=
  mkResearchData (topic d) (timestamp d) (trend_results d) (problem_results d) v
    (analysis d) (raw_data d).

Definition set_analysis (v : string) (d : ResearchData) : ResearchData :=
  mkResearchData (topic d) (timestamp d) (trend_results d) (problem_results d)
    (question_results d) v (raw_data d).

(** [dataclasses.asdict(r)] for a [SearchResult]. *)
Definition asdict (r : SearchResult) : PyObj :=
  PDict {[ "title" := PStr (title r); "url" := PStr (url r);
           "content" := PStr (content r); "score" := PFloat (score r) ]}.

(** [enumerate(l, start)]. *)
Fixpoint enumerate {A : Type} (l : list A) (start : nat) : list (nat * A) :=
  match l with
  | [] => []
  | x :: l' => (start, x) :: enumerate l' (S start)
  end.

(** ** External collaborators: what they answer *)

(** What a [raise] carries: whether the object is an instance of
    [Exception] (what [except Exception] catches; [KeyboardInterrupt] and
    [SystemExit] are not), and [str(e)]. *)
Record PyExc : Type := mkPyExc {
  is_Exception : bool;
  exc_str : string
}.

Definition AttributeError (msg : string) : PyExc := mkPyExc true msg.
Definition KeyError (key : string) : PyExc := mkPyExc true ("'" +:+ key +:+ "'").

(** A call returns a value or raises. *)
Inductive Outcome (A : Type) : Type :=
| Returned (a : A)
| Raised (e : PyExc).

Arguments Returned {A} a.
Arguments Raised {A} e.

(** An element of the provider's result list: a [dict] whose keys may be
    missing, or an object on which [.get] raises [AttributeError]. *)
Inductive Item : Type :=
| ItemDict (title url content : option string) (score : option float)
| ItemMalformed (msg : string).

(** The response of [TavilyClient.search]: a [dict] that may lack
    ["results"]. *)
Record SearchResponse : Type := mkSearchResponse {
  results : option (list Item)
}.

(** The response of [generate_content]; [text] may be [None]. *)
Record GenerateContentResponse : Type := mkGenerateContentResponse {
  text : option string
}.

(** [datetime]: the attribute and the method the agent uses. *)
Record datetime : Type := mkdatetime {
  year : Z;
  strftime : string -> string
}.

(** ** Effects *)

Inductive Level : Type := INFO | WARNING | ERROR.

(** What a run does to the outside, in order; a call to a collaborator is
    recorded with its answer. *)
Inductive Event : Type :=
| EvLog (level : Level) (msg : string)
| EvPrint (text : string)
| EvNow (answer : datetime)
| EvSearch (query search_depth : string) (max_results : Z) (include_raw_content : bool)
    (answer : Outcome SearchResponse)
| EvGenerateContent (model contents : string) (answer : Outcome GenerateContentResponse)
| EvWriteFile (path text : string) (answer : Outcome unit).

(** A computation reads the events so far and returns or raises, having
    added its own events. *)
Definition M (A : Type) : Type := list Event -> Outcome A * list Event.

Definition ret {A : Type} (a : A) : M A := fun tr => (Returned a, tr).

Definition raise {A : Type} (e : PyExc) : M A := fun tr => (Raised e, tr).

Definition bind {A B : Type} (m : M A) (k : A -> M B) : M B :=
  fun tr =>
    match m tr with
    | (Returned a, tr') => k a tr'
    | (Raised e, tr') => (Raised e, tr')
    end.

Declare Scope py_scope.
Delimit Scope py_scope with py.
Notation "x <- m ;; k" := (bind m (fun x => k))
  (at level 100, m at next level, k at level 200, right associativity) : py_scope.
Notation "m ;; k" := (bind m (fun _ => k))
  (at level 100, k at level 200, right associativity) : py_scope.

(** [try: body  except Exception as e: handler e]. *)
Definition try_except {A : Type} (body : M A) (handler : PyExc -> M A) : M A :=
  fun tr =>
    match body tr with
    | (Returned a, tr') => (Returned a, tr')
    | (Raised e, tr') => if is_Exception e then handler e tr' else (Raised e, tr')
    end.

(** [for x in l: s = body s x]. *)
Fixpoint for_each {A S : Type} (l : list A) (body : S -> A -> M S) (s : S) : M S :=
  match l with
  | [] => ret s
  | x :: l' => bind (body s x) (for_each l' body)
  end.

Definition emit (ev : Event) : M unit := fun tr => (Returned tt, tr ++ [ev]).

(** A call to a collaborator: it answers given everything that happened
    before; the call is recorded with the answer. *)
Definition call {A : Type} (answer : list Event -> Outcome A) (ev : Outcome A -> Event)
    : M A :=
  fun tr => let a := answer tr in (a, tr ++ [ev a]).

(** [logger.info(msg)] and the like, and [print(text)].  The log and the
    console are taken to accept every line: a console that refuses a line
    (an encoding without the character, a closed stream) is not
    modelled. *)
Definition logger (level : Level) (msg : string) : M unit := emit (EvLog level msg).
Definition print (text : string) : M unit := emit (EvPrint text).

(** [d[key]]. *)
Definition getitem (d : gmap string string) (key : string) : M string :=
  match d !! key with
  | Some v => ret v
  | None => raise (KeyError key)
  end.

(** [TavilyClient.search(query, search_depth, max_results, include_raw_content)]. *)
Definition TavilyClient : Type :=
  list Event -> string -> string -> Z -> bool -> Outcome SearchResponse.

(** [genai.Client.models.generate_content(model, contents)]. *)
Definition GeminiClient : Type :=
  list Event -> string -> string -> Outcome GenerateContentResponse.

(** The agent object ([self]). *)
Record ResearchAgent : Type := mkResearchAgent {
  model : string;
  tavily_client : TavilyClient;
  gemini_client : GeminiClient
}.

(** ** The agent *)

Section Agent.

(** The process environment: [datetime.now()], [os.path.join], the text
    [json.dump(obj, f, ensure_ascii=False, indent=2)] writes, and opening a
    file for writing and writing a text to it.  The clock and the file
    system answer given everything that happened before. *)
Variable clock : list Event -> datetime.
Variable os_path_join : string -> string -> string.
Variable json_dumps : PyObj -> string.
Variable file_system : list Event -> string -> string -> Outcome unit.

Local Open Scope py_scope.

Definition datetime_now : M datetime :=
  fun tr => let now := clock tr in (Returned now, tr ++ [EvNow now]).

Definition write_file (path text : string) : M unit :=
  call (fun tr => file_system tr path text) (EvWriteFile path text).

(** [self.tavily_client.search(...)] and
    [self.gemini_client.models.generate_content(...)]. *)
Definition tavily_search (self : ResearchAgent) (query search_depth : string)
    (max_results : Z) (include_raw_content : bool) : M SearchResponse :=
  call (fun tr => tavily_client self tr query search_depth max_results include_raw_content)
    (EvSearch query search_depth max_results include_raw_content).

Definition generate_content (self : ResearchAgent) (model contents : string)
    : M GenerateContentResponse :=
  call (fun tr => gemini_client self tr model contents)
    (EvGenerateContent model contents).

(** System prompt for LLM analysis. *)
Definition ANALYSIS_SYSTEM_PROMPT : string :=
  join LF
    ["Sen bir ürün geliştirme danışmanısın ve pazar araştırması uzmanısın.";
     "";
     "Sana verilen arama sonuçlarını dikkatlice analiz et ve şu başlıklar altında detaylı bir rapor hazırla:";
     "";
     "## 📈 Yükselen Trendler";
     "Bu alandaki güncel ve yükselen trendleri listele. Hangi teknolojiler, yaklaşımlar veya çözümler popülerlik kazanıyor?";
     "";
     "## 😤 Kullanıcı Şikayetleri ve Acı Noktaları (Pain Points)";
     "İnsanların bu konuyla ilgili en çok neyi zor bulduğunu, neden şikayet ettiğini ve hangi sorunlarla karşılaştığını belirt. ";
     "Spesifik örnekler ve alıntılar varsa onları da ekle.";
     "";
     "## 💡 Fırsat Alanları";
     "Bu sorunlara çözüm olabilecek potansiyel ürün veya hizmet fırsatlarını belirle.";
     "Hangi boşluklar doldurulabilir? Hangi ihtiyaçlar karşılanmamış?";
     "";
     "## 🎯 Öneriler";
     "Bir girişimci veya ürün geliştirici olarak bu bilgilerden nasıl yararlanılabilir? ";
     "3-5 maddelik aksiyon önerileri sun.";
     "";
     "Raporunu Türkçe olarak, profesyonel ve okunabilir bir formatta hazırla.";
     "Maddeler halinde, emoji kullanarak ve net bir dille yaz."].

(** The [queries] dict of [_generate_queries], for a given reading of the
    year. *)
Definition queries_dict (topic : string) (current_year : Z) : gmap string string :=
  {[ "trend" := topic +:+ " latest trends news " +:+ str_of_Z current_year;
     "problem" := "site:reddit.com " +:+ topic
                  +:+ " 'struggling with' OR 'hate' OR 'hard to' OR 'problem with'";
     "question" := topic +:+ " how to fix OR alternative to OR best solution for" ]}.

Definition _generate_queries (self : ResearchAgent) (topic : string)
    : M (gmap string string) :=
  now <- datetime_now ;;
  let current_year := year now in
  let queries := queries_dict topic current_year in
  logger INFO ("'" +:+ topic +:+ "' için 3 farklı sorgu oluşturuldu.") ;;
  ret queries.

(** [SearchResult(title=item.get("title", ""), url=item.get("url", ""),
    content=item.get("content", ""), score=item.get("score", 0.0))]. *)
Definition SearchResult_of_item (item : Item) : M SearchResult :=
  match item with
  | ItemDict t u c s =>
      ret (mkSearchResult (default "" t) (default "" u) (default "" c)
             (default 0%float s))
  | ItemMalformed msg => raise (AttributeError msg)
  end.

Definition _execute_search (self : ResearchAgent) (query : string) (max_results : Z)
    : M (list SearchResult) :=
  try_except
    (logger INFO ("Tavily araması yapılıyor: '" +:+ slice_to 50 query +:+ "...'") ;;
     response <- tavily_search self query "advanced" max_results false ;;
     results <- for_each (default [] (results response))
                  (fun results item =>
                     r <- SearchResult_of_item item ;;
                     ret (results ++ [r]))
                  [] ;;
     logger INFO ("  → " +:+ str_of_nat (length results) +:+ " sonuç bulundu.") ;;
     ret results)
    (fun e =>
       logger ERROR ("Tavily arama hatası: " +:+ exc_str e) ;;
       ret []).

(** Truth value of a list: non-empty. *)
Definition truthy {A : Type} (l : list A) : bool :=
  match l with
  | [] => false
  | _ :: _ => true
  end.

(** One section of [_prepare_content_for_analysis]: when the bucket is
    non-empty, the header and three entries per result are appended to
    [sections]. *)
Definition append_section (header label : string) (bucket : list SearchResult)
    (sections : list string) : list string :=
  if truthy bucket then
    fold_left
      (fun sections '(i, result) =>
         let sections :=
           sections ++ [LF +:+ "[" +:+ label +:+ " " +:+ str_of_nat i +:+ "] " +:+ title result] in
         let sections := sections ++ ["Kaynak: " +:+ url result] in
         let sections := sections ++ ["İçerik: " +:+ content result +:+ LF] in
         sections)
      (enumerate bucket 1)
      (sections ++ [header])
  else sections.

Definition _prepare_content_for_analysis (data : ResearchData) : string :=
  let sections := [] in
  let sections :=
    append_section "=== TREND VE HABER SONUÇLARI ===" "Trend"
      (trend_results data) sections in
  let sections :=
    append_section (LF +:+ "=== SORUN VE ŞİKAYET SONUÇLARI (Reddit/Forum) ===") "Şikayet"
      (problem_results data) sections in
  let sections :=
    append_section (LF +:+ "=== SORU VE ÇÖZÜM ARAMA SONUÇLARI ===") "Soru"
      (question_results data) sections in
  join LF sections.

(** The prompt built by [_analyze_with_llm]. *)
Definition prompt_of (content topic : string) : string :=
  join LF
    [ANALYSIS_SYSTEM_PROMPT;
     "";
     "---";
     "";
     "Araştırılan Konu: " +:+ topic;
     "";
     "Aşağıda bu konu hakkında toplanan arama sonuçları bulunmaktadır. ";
     "Lütfen bunları analiz et ve yukarıdaki formatta bir rapor hazırla.";
     "";
     content].

Definition _analyze_with_llm (self : ResearchAgent) (content topic : string) : M string :=
  try_except
    (logger INFO ("LLM analizi başlatılıyor (" +:+ model self +:+ ")...") ;;
     let prompt := prompt_of content topic in
     response <- generate_content self (model self) prompt ;;
     analysis <- match text response with
                 | Some t => ret (strip t)
                 | None => raise (AttributeError "'NoneType' object has no attribute 'strip'")
                 end ;;
     logger INFO "LLM analizi tamamlandı." ;;
     ret analysis)
    (fun e =>
       logger ERROR ("LLM analiz hatası: " +:+ exc_str e) ;;
       ret ("Analiz sırasında bir hata oluştu: " +:+ exc_str e)).

(** Formats the URL list as Markdown. *)
Definition _format_url_list (results : list SearchResult) : string :=
  if negb (truthy results) then "- Sonuç bulunamadı"
  else
    let lines :=
      fold_left
        (fun lines result => lines ++ ["- [" +:+ title result +:+ "](" +:+ url result +:+ ")"])
        results [] in
    join LF lines.

(** [len(data.trend_results) + len(data.problem_results) +
    len(data.question_results)]. *)
Definition total_results (data : ResearchData) : nat :=
  (length (trend_results data) + length (problem_results data)
   + length (question_results data))%nat.

(** The [report_content] of [_save_markdown_report]. *)
Definition report_content (data : ResearchData) : string :=
  join LF
    ["# 🔍 Pazar Araştırma Raporu";
     "";
     "**Konu:** " +:+ topic data +:+ "  ";
     "**Tarih:** " +:+ timestamp data +:+ "  ";
     "**Oluşturan:** Market & Trend Research Agent";
     "";
     "---";
     "";
     analysis data;
     "";
     "---";
     "";
     "## 📊 Araştırma İstatistikleri";
     "";
     "| Kategori | Sonuç Sayısı |";
     "|----------|--------------|";
     "| Trend Sonuçları | " +:+ str_of_nat (length (trend_results data)) +:+ " |";
     "| Sorun/Şikayet Sonuçları | " +:+ str_of_nat (length (problem_results data)) +:+ " |";
     "| Soru/Çözüm Sonuçları | " +:+ str_of_nat (length (question_results data)) +:+ " |";
     "| **Toplam** | **" +:+ str_of_nat (total_results data) +:+ "** |";
     "";
     "---";
     "";
     "## 🔗 Kaynak URL'leri";
     "";
     "### Trend Kaynakları";
     _format_url_list (trend_results data);
     "";
     "### Sorun/Şikayet Kaynakları";
     _format_url_list (problem_results data);
     "";
     "### Soru/Çözüm Kaynakları";
     _format_url_list (question_results data);
     "";
     "---";
     "";
     "*Bu rapor, Market & Trend Research Agent tarafından otomatik olarak oluşturulmuştur.*";
     ""].

Definition _save_markdown_report (self : ResearchAgent) (data : ResearchData)
    (output_dir : string) : M string :=
  now <- datetime_now ;;
  let timestamp := strftime now "%Y%m%d_%H%M%S" in
  let filename := "rapor_" +:+ timestamp +:+ ".md" in
  let filepath := os_path_join output_dir filename in
  write_file filepath (report_content data) ;;
  logger INFO ("Markdown raporu kaydedildi: " +:+ filepath) ;;
  ret filepath.

(** The [json_data] of [_save_json_data]. *)
Definition json_data (self : ResearchAgent) (data : ResearchData) : gmap string PyObj :=
  {[ "topic" := PStr (topic data);
     "timestamp" := PStr (timestamp data);
     "trend_results" := PList (map asdict (trend_results data));
     "problem_results" := PList (map asdict (problem_results data));
     "question_results" := PList (map asdict (question_results data));
     "analysis" := PStr (analysis data);
     "metadata" := PDict {[ "model_used" := PStr (model self);
                            "total_results" := PInt (Z.of_nat (total_results data)) ]} ]}.

Definition _save_json_data (self : ResearchAgent) (data : ResearchData)
    (output_dir : string) : M string :=
  now <- datetime_now ;;
  let timestamp := strftime now "%Y%m%d_%H%M%S" in
  let filename := "data_" +:+ timestamp +:+ ".json" in
  let filepath := os_path_join output_dir filename in
  write_file filepath (json_dumps (PDict (json_data self data))) ;;
  logger INFO ("JSON verisi kaydedildi: " +:+ filepath) ;;
  ret filepath.

(** Prints the report to the console. *)
Definition _print_report (data : ResearchData) : M unit :=
  let border := repeat_str "=" 60 in
  print (LF +:+ border) ;;
  print "🔍 PAZAR ARAŞTIRMA RAPORU" ;;
  print border ;;
  print ("📌 Konu: " +:+ topic data) ;;
  print ("📅 Tarih: " +:+ timestamp data) ;;
  print border ;;
  print "" ;;
  print (analysis data) ;;
  print "" ;;
  print border ;;
  print ("📊 Toplam " +:+ str_of_nat (total_results data) +:+ " kaynak analiz edildi.") ;;
  print border.

Definition research (self : ResearchAgent) (topic output_dir : string)
    (max_results_per_query : Z) (save_files : bool) : M ResearchData :=
  logger INFO ("Araştırma başlatılıyor: '" +:+ topic +:+ "'") ;;
  print (LF +:+ "🚀 '" +:+ topic +:+ "' konusu için araştırma başlatılıyor..." +:+ LF) ;;
  now <- datetime_now ;;
  let data := new_ResearchData topic (strftime now "%Y-%m-%d %H:%M:%S") in
  queries <- _generate_queries self topic ;;
  print "📡 Veri toplama aşaması..." ;;
  q <- getitem queries "trend" ;;
  r <- _execute_search self q max_results_per_query ;;
  let data := set_trend_results r data in
  q <- getitem queries "problem" ;;
  r <- _execute_search self q max_results_per_query ;;
  let data := set_problem_results r data in
  q <- getitem queries "question" ;;
  r <- _execute_search self q max_results_per_query ;;
  let data := set_question_results r data in
  let content := _prepare_content_for_analysis data in
  data <- (if bool_decide (strip content = "")
           then
             logger WARNING "Analiz için yeterli içerik bulunamadı." ;;
             ret (set_analysis "Üzgünüz, bu konu hakkında yeterli veri bulunamadı." data)
           else
             print "🧠 Yapay zeka analizi yapılıyor..." ;;
             a <- _analyze_with_llm self content topic ;;
             ret (set_analysis a data)) ;;
  _print_report data ;;
  (if save_files then
     print (LF +:+ "💾 Dosyalar kaydediliyor...") ;;
     md_path <- _save_markdown_report self data output_dir ;;
     json_path <- _save_json_data self data output_dir ;;
     print ("✅ Markdown raporu: " +:+ md_path) ;;
     print ("✅ JSON verisi: " +:+ json_path)
   else ret tt) ;;
  print (LF +:+ "✨ Araştırma tamamlandı!" +:+ LF) ;;
  ret data.

End Agent.

(** ** Reading a trace *)

(** The calls to the search provider recorded in a trace, in order: query,
    result bound and answer. *)
Definition searches (tr : list Event) : list (string * Z * Outcome SearchResponse) :=
  flat_map (fun ev => match ev with
                      | EvSearch q _ n _ a => [(q, n, a)]
                      | _ => []
                      end) tr.

(** The calls to the LLM provider recorded in a trace, in order: model,
    prompt and answer. *)
Definition generations (tr : list Event)
    : list (string * string * Outcome GenerateContentResponse) :=
  flat_map (fun ev => match ev with
                      | EvGenerateContent m c a => [(m, c, a)]
                      | _ => []
                      end) tr.

(** The warnings logged in a trace. *)
Definition warnings (tr : list Event) : list string :=
  flat_map (fun ev => match ev with
                      | EvLog WARNING msg => [msg]
                      | _ => []
                      end) tr.

(** ** The properties, in the words of the specification *)

(** The provider's items as results, in the provider's order, when every
    item is a [dict]. *)
Definition result_of_fields (t u c : option string) (s : option float) : SearchResult :=
  mkSearchResult (default "" t) (default "" u) (default "" c) (default 0%float s).

Fixpoint results_of_items (items : list Item) : option (list SearchResult) :=
  match items with
  | [] => Some []
  | ItemDict t u c s :: items' =>
      match results_of_items items' with
      | Some rs => Some (result_of_fields t u c s :: rs)
      | None => None
      end
  | ItemMalformed _ :: _ => None
  end.

(** The bucket an intent gets for what the provider answered: the results
    in provider order, and the empty sequence when the call failed. *)
Definition bucket_of (a : Outcome SearchResponse) : list SearchResult :=
  match a with
  | Returned response => default [] (results_of_items (default [] (results response)))
  | Raised _ => []
  end.

(** The analysis for what the LLM provider answered: the trimmed text, and
    a message embedding the failure when the call failed. *)
Definition analysis_of (a : Outcome GenerateContentResponse) : string :=
  match a with
  | Returned response =>
      match text response with
      | Some t => strip t
      | None => "Analiz sırasında bir hata oluştu: "
                +:+ "'NoneType' object has no attribute 'strip'"
      end
  | Raised e => "Analiz sırasında bir hata oluştu: " +:+ exc_str e
  end.

(** The normalised content as the specification words it: three labelled
    sections in the order trend, problem, question; a section is present
    only if its bucket is non-empty; a result is rendered as its 1-based
    index and title, its source URL and its content snippet. *)
Definition entry (label : string) (index : nat) (r : SearchResult) : list string :=
  [LF +:+ "[" +:+ label +:+ " " +:+ str_of_nat index +:+ "] " +:+ title r;
   "Kaynak: " +:+ url r;
   "İçerik: " +:+ content r +:+ LF].

Definition section (header label : string) (bucket : list SearchResult) : list string :=
  match bucket with
  | [] => []
  | _ :: _ => header :: concat (imap (fun k r => entry label (S k) r) bucket)
  end.

Definition normalize (record : ResearchData) : string :=
  join LF
    (section "=== TREND VE HABER SONUÇLARI ===" "Trend" (trend_results record)
     ++ section (LF +:+ "=== SORUN VE ŞİKAYET SONUÇLARI (Reddit/Forum) ===") "Şikayet"
          (problem_results record)
     ++ section (LF +:+ "=== SORU VE ÇÖZÜM ARAMA SONUÇLARI ===") "Soru"
          (question_results record)).

(** One link line of the document form: title as link text, url as
    target. *)
Definition link_line (r : SearchResult) : string :=
  "- [" +:+ title r +:+ "](" +:+ url r +:+ ")".

(** [sub] occurs in [s]. *)
Definition occurs_in (sub s : string) : Prop :=
  ∃ pre post, s = pre +:+ sub +:+ post.

(** Reading a record back from the data form. *)
Definition SearchResult_of_dict (o : PyObj) : option SearchResult :=
  match o with
  | PDict d =>
      match d !! "title", d !! "url", d !! "content", d !! "score" with
      | Some (PStr t), Some (PStr u), Some (PStr c), Some (PFloat s) =>
          Some (mkSearchResult t u c s)
      | _, _, _, _ => None
      end
  | _ => None
  end.

Definition bucket_of_json (o : option PyObj) : option (list SearchResult) :=
  match o with
  | Some (PList l) => mapM SearchResult_of_dict l
  | _ => None
  end.

Definition record_of_json (j : gmap string PyObj) : option ResearchData :=
  match j !! "topic", j !! "timestamp", j !! "analysis" with
  | Some (PStr t), Some (PStr ts), Some (PStr a) =>
      match bucket_of_json (j !! "trend_results"),
            bucket_of_json (j !! "problem_results"),
            bucket_of_json (j !! "question_results") with
      | Some tr, Some pr, Some qr => Some (mkResearchData t ts tr pr qr a ∅)
      | _, _, _ => None
      end
  | _, _, _ => None
  end.

(** The record without its free-form map. *)
Definition without_raw_data (d : ResearchData) : ResearchData :=
  mkResearchData (topic d) (timestamp d) (trend_results d) (problem_results d)
    (question_results d) (analysis d) ∅.

(** An ASCII digit. *)
Definition is_digit (c : ascii) : bool :=
  ((48 <=? N_of_ascii c) && (N_of_ascii c <=? 57))%N.

(** Every byte of a string satisfies [P]. *)
Fixpoint all_bytes (P : ascii -> bool) (s : string) : bool :=
  match s with
  | "" => true
  | String c r => P c && all_bytes P r
  end.

(** An event that is neither a provider call nor a warning. *)
Definition silent (ev : Event) : bool :=
  match ev with
  | EvLog WARNING _ | EvSearch _ _ _ _ _ | EvGenerateContent _ _ _ => false
  | _ => true
  end.

(** The last byte of a string. *)
Fixpoint last_byte (s : string) : option ascii :=
  match s with
  | "" => None
  | String c r =>
      match r with
      | "" => Some c
      | String _ _ => last_byte r
      end
  end.

(** What [_execute_search] and [_analyze_with_llm] make of the provider's
    answer: a failure that is an [Exception] is recovered from, anything
    else that is raised goes on to the caller. *)
Definition search_outcome (a : Outcome SearchResponse) : Outcome (list SearchResult) :=
  match a with
  | Returned _ => Returned (bucket_of a)
  | Raised e => if is_Exception e then Returned [] else Raised e
  end.

Definition llm_outcome (a : Outcome GenerateContentResponse) : Outcome string :=
  match a with
  | Returned _ => Returned (analysis_of a)
  | Raised e => if is_Exception e then Returned (analysis_of a) else Raised e
  end.

(** [wp m tr Q]: running [m] after [tr] ends in an outcome and a trace
    that satisfy [Q]. *)
Definition wp {A : Type} (m : M A) (tr : list Event)
    (Q : Outcome A -> list Event -> Prop) : Prop :=
  Q (m tr).1 (m tr).2.

(** [tr'] continues [tr] without calling a provider or logging a
    warning. *)
Definition quiet (tr tr' : list Event) : Prop :=
  searches tr' = searches tr ∧ generations tr' = generations tr
  ∧ warnings tr' = warnings tr.

(** What a run of [research] started after [tr] leaves behind.  When it
    returns a record: the three searches it made, in order, with what the
    provider answered; the buckets of the record; and either the fallback
    (blank content: the fixed analysis, a warning, no LLM call) or one LLM
    call on the content and the analysis made of its answer.  When it
    raises: a provider raised something that is not an [Exception], or
    writing a file failed. *)
Definition research_post (file_system : list Event -> string -> string -> Outcome unit)
    (self : ResearchAgent) (subject : string) (n : Z) (save_files : bool)
    (tr : list Event) (out : Outcome ResearchData) (tr' : list Event) : Prop :=
  match out with
  | Returned data =>
      ∃ y a1 a2 a3,
        searches tr' = searches tr ++
          [(subject +:+ " latest trends news " +:+ str_of_Z y, n, a1);
           ("site:reddit.com " +:+ subject
            +:+ " 'struggling with' OR 'hate' OR 'hard to' OR 'problem with'", n, a2);
           (subject +:+ " how to fix OR alternative to OR best solution for", n, a3)]
        ∧ topic data = subject
        ∧ trend_results data = bucket_of a1
        ∧ problem_results data = bucket_of a2
        ∧ question_results data = bucket_of a3
        ∧ raw_data data = ∅
        ∧ if bool_decide (strip (_prepare_content_for_analysis data) = "")
          then analysis data = "Üzgünüz, bu konu hakkında yeterli veri bulunamadı."
               ∧ generations tr' = generations tr
               ∧ warnings tr' = warnings tr ++ ["Analiz için yeterli içerik bulunamadı."]
          else ∃ g,
               generations tr' = generations tr ++
                 [(model self, prompt_of (_prepare_content_for_analysis data) subject, g)]
               ∧ analysis data = analysis_of g
               ∧ warnings tr' = warnings tr
  | Raised e =>
      (is_Exception e = false
       ∧ ((∃ t q, tavily_client self t q "advanced" n false = Raised e)
          ∨ (∃ t c, gemini_client self t (model self) c = Raised e)))
      ∨ (save_files = true ∧ ∃ t p x, file_system t p x = Raised e)
  end.

(** ** A run to try the properties on

    The scenario of the specification: the topic is "home coffee
    roasting"; the search provider returns two hits for the first query,
    fails on the second, returns three hits for the third; the LLM provider
    returns a report. *)

Module Scenario.

Definition hit (n : nat) : Item :=
  ItemDict (Some ("hit " +:+ str_of_nat n))
    (Some ("https://example.org/" +:+ str_of_nat n))
    (Some "snippet") (Some 0.5%float).

(** Answers by the number of searches made so far. *)
Definition tavily : TavilyClient :=
  fun tr _ _ _ _ =>
    match length (searches tr) with
    | O => Returned (mkSearchResponse (Some [hit 1; hit 2]))
    | S O => Raised (mkPyExc true "rate limit exceeded")
    | S (S _) => Returned (mkSearchResponse (Some [hit 3; hit 4; hit 5]))
    end.

(** Fails on every query. *)
Definition tavily_down : TavilyClient :=
  fun _ _ _ _ _ => Raised (mkPyExc true "connection timed out").

Definition gemini : GeminiClient :=
  fun _ _ _ => Returned (mkGenerateContentResponse (Some (" ## Trends" +:+ LF))).

Definition gemini_down : GeminiClient :=
  fun _ _ _ => Raised (mkPyExc true "quota exhausted").

Definition agent : ResearchAgent := mkResearchAgent "gemini-2.5-flash" tavily gemini.

Definition agent_llm_down : ResearchAgent :=
  mkResearchAgent "gemini-2.5-flash" tavily gemini_down.

Definition agent_search_down : ResearchAgent :=
  mkResearchAgent "gemini-2.5-flash" tavily_down gemini.

Definition clock : list Event -> datetime :=
  fun _ => mkdatetime 2025
             (fun format => if bool_decide (format = "%Y%m%d_%H%M%S")
                            then "20250601_120000" else "2025-06-01 12:00:00").

Definition os_path_join (a b : string) : string := a +:+ "/" +:+ b.

Definition json_dumps (o : PyObj) : string := "{}".

Definition file_system : list Event -> string -> string -> Outcome unit :=
  fun _ _ _ => Returned tt.

Definition run (self : ResearchAgent) : Outcome ResearchData * list Event :=
  research clock os_path_join json_dumps file_system self
    "home coffee roasting" "." 10 true [].

Definition result (n : nat) : SearchResult :=
  mkSearchResult ("hit " +:+ str_of_nat n) ("https://example.org/" +:+ str_of_nat n)
    "snippet" 0.5%float.

Definition record : ResearchData :=
  mkResearchData "home coffee roasting" "2025-06-01 12:00:00"
    [result 1; result 2] [] [result 3; result 4; result 5] "## Trends" ∅.

(** Two records that differ in the free-form map only. *)
Definition record_with_raw_data : ResearchData :=
  mkResearchData "home coffee roasting" "2025-06-01 12:00:00"
    [result 1; result 2] [] [result 3; result 4; result 5] "## Trends"
    {[ "source" := PStr "manual" ]}.

End Scenario.

(** ** Construction of the agent *)

(** [ValueError(msg)]. *)
Definition ValueError (msg : string) : PyExc := mkPyExc true msg.

(** [not key] for an optional string: [None] and the empty string. *)
Definition falsy (key : option string) : bool :=
  match key with
  | None => true
  | Some s => bool_decide (s = "")
  end.

(** [a or b] on optional strings. *)
Definition py_or (a b : option string) : option string :=
  if falsy a then b else a.

(** The result of a constructor of a collaborator's library: no event of
    the run. *)
Definition construct {A : Type} (o : Outcome A) : M A := fun tr => (o, tr).

Section Construction.

(** [os.getenv], and the constructors [TavilyClient(api_key=...)] and
    [genai.Client(api_key=...)]. *)
Variable os_getenv : string -> option string.
Variable new_TavilyClient : string -> Outcome TavilyClient.
Variable new_genai_Client : string -> Outcome GeminiClient.

Local Open Scope py_scope.

(** [_validate_api_keys], on the two key attributes of [self]. *)
Definition _validate_api_keys (tavily_api_key gemini_api_key : option string) : M unit :=
  let missing_keys := [] in
  let missing_keys :=
    if falsy tavily_api_key then missing_keys ++ ["TAVILY_API_KEY"] else missing_keys in
  let missing_keys :=
    if falsy gemini_api_key then missing_keys ++ ["GEMINI_API_KEY"] else missing_keys in
  if truthy missing_keys then
    raise (ValueError
             ("Eksik API anahtarları: " +:+ join ", " missing_keys +:+ ". "
              +:+ "Lütfen .env dosyasına ekleyin veya environment variable olarak tanımlayın."))
  else ret tt.

(** [ResearchAgent.__init__]. *)
Definition __init__ (tavily_api_key gemini_api_key : option string) (model : string)
    : M ResearchAgent :=
  let tavily_api_key := py_or tavily_api_key (os_getenv "TAVILY_API_KEY") in
  let gemini_api_key := py_or gemini_api_key (os_getenv "GEMINI_API_KEY") in
  _validate_api_keys tavily_api_key gemini_api_key ;;
  tavily_client <- construct (new_TavilyClient (default "" tavily_api_key)) ;;
  gemini_client <- construct (new_genai_Client (default "" gemini_api_key)) ;;
  logger INFO "ResearchAgent başarıyla başlatıldı." ;;
  ret (mkResearchAgent model tavily_client gemini_client).

End Construction.

(** ** More readings of a trace *)

(** The files written, in order: path, text and whether writing worked. *)
Definition writes (tr : list Event) : list (string * string * Outcome unit) :=
  flat_map (fun ev => match ev with
                      | EvWriteFile p x a => [(p, x, a)]
                      | _ => []
                      end) tr.

(** The requests sent to the search provider, in order: query, search
    depth, result bound and whether raw content is asked for. *)
Definition search_requests (tr : list Event) : list (string * string * Z * bool) :=
  flat_map (fun ev => match ev with
                      | EvSearch q d n r _ => [(q, d, n, r)]
                      | _ => []
                      end) tr.

(** The lines printed on the console, in order. *)
Definition prints (tr : list Event) : list string :=
  flat_map (fun ev => match ev with
                      | EvPrint x => [x]
                      | _ => []
                      end) tr.

(** The message of the first item that is not a [dict]. *)
Fixpoint first_malformed (items : list Item) : option string :=
  match items with
  | [] => None
  | ItemDict _ _ _ _ :: items' => first_malformed items'
  | ItemMalformed msg :: _ => Some msg
  end.

(** The events of one [_execute_search], for what the provider
    answered. *)
Definition search_events (query : string) (max_results : Z) (a : Outcome SearchResponse)
    : list Event :=
  [EvLog INFO ("Tavily araması yapılıyor: '" +:+ slice_to 50 query +:+ "...'");
   EvSearch query "advanced" max_results false a]
  ++ match a with
     | Returned response =>
         match first_malformed (default [] (results response)) with
         | None => [EvLog INFO ("  → " +:+ str_of_nat (length (bucket_of a))
                                +:+ " sonuç bulundu.")]
         | Some msg => [EvLog ERROR ("Tavily arama hatası: " +:+ msg)]
         end
     | Raised e =>
         if is_Exception e then [EvLog ERROR ("Tavily arama hatası: " +:+ exc_str e)]
         else []
     end.

(** The events of one [_analyze_with_llm], for what the provider
    answered. *)
Definition analyze_events (model prompt : string) (a : Outcome GenerateContentResponse)
    : list Event :=
  [EvLog INFO ("LLM analizi başlatılıyor (" +:+ model +:+ ")...");
   EvGenerateContent model prompt a]
  ++ match a with
     | Returned response =>
         match text response with
         | Some _ => [EvLog INFO "LLM analizi tamamlandı."]
         | None => [EvLog ERROR ("LLM analiz hatası: "
                                 +:+ "'NoneType' object has no attribute 'strip'")]
         end
     | Raised e =>
         if is_Exception e then [EvLog ERROR ("LLM analiz hatası: " +:+ exc_str e)]
         else []
     end.

(** A text starts, or ends, with a whitespace character. *)
Definition starts_with_space (s : string) : Prop :=
  is_Some (drop_one whitespace_utf8 s).

Definition ends_with_space (s : string) : Prop :=
  is_Some (drop_one (map String.rev whitespace_utf8) (String.rev s)).

(** The lines [_print_report] prints. *)
Definition console_report (data : ResearchData) : list string :=
  let border := repeat_str "=" 60 in
  [LF +:+ border;
   "🔍 PAZAR ARAŞTIRMA RAPORU";
   border;
   "📌 Konu: " +:+ topic data;
   "📅 Tarih: " +:+ timestamp data;
   border;
   "";
   analysis data;
   "";
   border;
   "📊 Toplam " +:+ str_of_nat (total_results data) +:+ " kaynak analiz edildi.";
   border].

(** What a run of [research] started after [tr] writes and prints.  When
    it returns a record: the timestamp of the record is the time read
    when the run started; the console shows the progress lines, the
    report of the record and, when files are saved, the paths of the two
    files; the two files hold the document form and the data form of the
    record.  When it raises: no file was written, or the last file it
    tried to write is the one that failed. *)
Definition research_io_post (clock : list Event -> datetime)
    (os_path_join : string -> string -> string) (json_dumps : PyObj -> string)
    (self : ResearchAgent) (subject dir : string) (save_files : bool)
    (tr : list Event) (out : Outcome ResearchData) (tr' : list Event) : Prop :=
  let started :=
    tr ++ [EvLog INFO ("Araştırma başlatılıyor: '" +:+ subject +:+ "'");
           EvPrint (LF +:+ "🚀 '" +:+ subject
                    +:+ "' konusu için araştırma başlatılıyor..." +:+ LF)] in
  match out with
  | Returned data =>
      timestamp data = strftime (clock started) "%Y-%m-%d %H:%M:%S"
      /\ exists saved,
           prints tr' = prints tr
             ++ [LF +:+ "🚀 '" +:+ subject +:+ "' konusu için araştırma başlatılıyor..." +:+ LF;
                 "📡 Veri toplama aşaması..."]
             ++ (if bool_decide (strip (_prepare_content_for_analysis data) = "")
                 then [] else ["🧠 Yapay zeka analizi yapılıyor..."])
             ++ console_report data
             ++ saved
             ++ [LF +:+ "✨ Araştırma tamamlandı!" +:+ LF]
           /\ if save_files
              then exists t1 t2,
                     let md_path :=
                       os_path_join dir ("rapor_" +:+ strftime t1 "%Y%m%d_%H%M%S" +:+ ".md") in
                     let json_path :=
                       os_path_join dir ("data_" +:+ strftime t2 "%Y%m%d_%H%M%S" +:+ ".json") in
                     writes tr' = writes tr
                       ++ [(md_path, report_content data, Returned tt);
                           (json_path, json_dumps (PDict (json_data self data)), Returned tt)]
                     /\ saved = [LF +:+ "💾 Dosyalar kaydediliyor...";
                                 "✅ Markdown raporu: " +:+ md_path;
                                 "✅ JSON verisi: " +:+ json_path]
              else writes tr' = writes tr /\ saved = []
  | Raised e =>
      writes tr' = writes tr
      \/ (save_files = true
          /\ exists p x,
               writes tr' = writes tr ++ [(p, x, Raised e)]
               \/ exists p0 x0,
                    writes tr' = writes tr ++ [(p0, x0, Returned tt); (p, x, Raised e)])
  end.

(** ** Runs that go wrong

    Collaborators that misbehave, to try the properties on: a search
    provider whose second item is a string, one whose response has no
    result list, providers interrupted from the keyboard, an LLM response
    without text, a disk that is full, and an environment that holds the
    LLM key only. *)

Module Faults.

Definition KeyboardInterrupt : PyExc := mkPyExc false "".

Definition tavily_malformed : TavilyClient :=
  fun _ _ _ _ _ =>
    Returned (mkSearchResponse
                (Some [Scenario.hit 1;
                       ItemMalformed "'str' object has no attribute 'get'";
                       Scenario.hit 2])).

Definition tavily_without_results : TavilyClient :=
  fun _ _ _ _ _ => Returned (mkSearchResponse None).

Definition tavily_interrupted : TavilyClient :=
  fun _ _ _ _ _ => Raised KeyboardInterrupt.

Definition gemini_without_text : GeminiClient :=
  fun _ _ _ => Returned (mkGenerateContentResponse None).

Definition gemini_interrupted : GeminiClient :=
  fun _ _ _ => Raised KeyboardInterrupt.

Definition agent_of (tavily : TavilyClient) (gemini : GeminiClient) : ResearchAgent :=
  mkResearchAgent "gemini-2.5-flash" tavily gemini.

(** An LLM provider whose answer is, word for word, the message of the
    fallback. *)
Definition gemini_fallback_text : GeminiClient :=
  fun _ _ _ =>
    Returned (mkGenerateContentResponse
                (Some "Üzgünüz, bu konu hakkında yeterli veri bulunamadı.")).

Definition run_fallback_text : Outcome ResearchData * list Event :=
  research Scenario.clock Scenario.os_path_join Scenario.json_dumps Scenario.file_system
    (agent_of Scenario.tavily gemini_fallback_text) "home coffee roasting" "." 10 true [].

Definition disk_full : list Event -> string -> string -> Outcome unit :=
  fun _ _ _ => Raised (mkPyExc true "[Errno 28] No space left on device").

Definition run_disk_full : Outcome ResearchData * list Event :=
  research Scenario.clock Scenario.os_path_join Scenario.json_dumps disk_full
    Scenario.agent "home coffee roasting" "." 10 true [].

Definition os_getenv (name : string) : option string :=
  if bool_decide (name = "GEMINI_API_KEY") then Some "gemini-key" else None.

Definition new_TavilyClient (api_key : string) : Outcome TavilyClient :=
  Returned Scenario.tavily.

Definition new_genai_Client (api_key : string) : Outcome GeminiClient :=
  Returned Scenario.gemini.

End Faults.

(** * Properties *)

(** ** Strings *)

Section Strings.

Implicit Types (s r p w : string) (c : ascii).

Lemma str_app_nil_l s : "" +:+ s = s.
Proof. reflexivity. Qed.

Lemma str_app_cons c s r : String c s +:+ r = String c (s +:+ r).
Proof. reflexivity. Qed.

Lemma str_app_nil_r s : s +:+ "" = s.
Proof. induction s as [|c s IH]; [reflexivity|]. rewrite str_app_cons. by rewrite IH. Qed.

Lemma str_app_assoc s r p : (s +:+ r) +:+ p = s +:+ (r +:+ p).
Proof.
  induction s as [|c s IH]; [reflexivity|].
  rewrite !str_app_cons. by rewrite IH.
Qed.

Lemma str_app_eq_nil s r : s +:+ r = "" -> s = "" /\ r = "".
Proof. destruct s; [rewrite str_app_nil_l; auto | rewrite str_app_cons; discriminate]. Qed.

Lemma has_byte_app c s r : has_byte c (s +:+ r) = has_byte c s || has_byte c r.
Proof.
  induction s as [|a s IH]; [reflexivity|].
  rewrite str_app_cons. simpl. rewrite IH. by rewrite orb_assoc.
Qed.

Lemma has_byte_nonempty c s : has_byte c s = true -> s <> "".
Proof. by destruct s. Qed.

Lemma has_byte_join c sep x l :
  x ∈ l -> has_byte c x = true -> has_byte c (join sep l) = true.
Proof.
  unfold join. induction l as [|y l IH]; [by intros ?%elem_of_nil|].
  intros Hin Hx. simpl. destruct l as [|z l].
  - apply list_elem_of_singleton in Hin as ->. exact Hx.
  - rewrite !has_byte_app. apply elem_of_cons in Hin as [->|Hin].
    + by rewrite Hx.
    + rewrite (IH Hin Hx). by rewrite !orb_true_r.
Qed.

Lemma rev_app_has_byte c s r :
  has_byte c (String.rev_app s r) = has_byte c s || has_byte c r.
Proof.
  revert r. induction s as [|a s IH]; intros r; [reflexivity|].
  simpl. rewrite IH. simpl.
  destruct (Ascii.eqb a c), (has_byte c s), (has_byte c r); reflexivity.
Qed.

Lemma has_byte_rev c s : has_byte c (String.rev s) = has_byte c s.
Proof. unfold String.rev. rewrite rev_app_has_byte. simpl. by rewrite orb_false_r. Qed.

Lemma strip_prefix_app p s r : strip_prefix p s = Some r -> s = p +:+ r.
Proof.
  revert s. induction p as [|a p IH]; intros s; simpl.
  - by intros [= ->].
  - destruct s as [|b s]; [discriminate|].
    destruct (Ascii.eqb_spec a b) as [->|]; [|discriminate].
    intros H. rewrite str_app_cons. by rewrite <- (IH _ H).
Qed.

Lemma drop_one_app table s r :
  drop_one table s = Some r -> exists w, w ∈ table /\ s = w +:+ r.
Proof.
  induction table as [|w table IH]; simpl; [discriminate|].
  destruct (strip_prefix w s) as [r'|] eqn:E.
  - intros [= ->]. exists w. split; [by left | by apply strip_prefix_app].
  - intros H. destruct (IH H) as (w' & Hin & ->). exists w'. split; [by right | done].
Qed.

(** Dropping words that do not hold a byte keeps that byte. *)
Lemma drop_while_keeps_byte c table n s :
  Forall (fun w => has_byte c w = false) table ->
  has_byte c s = true -> has_byte c (drop_while table n s) = true.
Proof.
  intros Ht. revert s. induction n as [|n IH]; intros s Hs; simpl; [done|].
  destruct (drop_one table s) as [r|] eqn:E; [|done].
  apply IH. destruct (drop_one_app _ _ _ E) as (w & Hin & ->).
  rewrite has_byte_app in Hs.
  rewrite Forall_forall in Ht. rewrite (Ht w Hin) in Hs. exact Hs.
Qed.

Lemma lstrip_keeps_byte c s :
  forallb (fun w => negb (has_byte c w)) whitespace_utf8 = true ->
  has_byte c s = true -> has_byte c (lstrip s) = true.
Proof.
  intros Ht. apply drop_while_keeps_byte.
  apply Forall_forall. intros w Hin%list_elem_of_In.
  rewrite forallb_forall in Ht. specialize (Ht w Hin). by destruct (has_byte c w).
Qed.

Lemma rstrip_keeps_byte c s :
  forallb (fun w => negb (has_byte c w)) whitespace_utf8 = true ->
  has_byte c s = true -> has_byte c (rstrip s) = true.
Proof.
  intros Ht Hs. unfold rstrip. rewrite has_byte_rev.
  apply drop_while_keeps_byte; [|by rewrite has_byte_rev].
  apply Forall_forall. intros w Hin. apply list_elem_of_fmap in Hin as (w' & -> & Hin%list_elem_of_In).
  rewrite has_byte_rev.
  rewrite forallb_forall in Ht. specialize (Ht w' Hin). by destruct (has_byte c w').
Qed.

(** A text that holds a byte which is in no whitespace character does not
    strip to the empty string. *)
Lemma strip_keeps_byte c s :
  forallb (fun w => negb (has_byte c w)) whitespace_utf8 = true ->
  has_byte c s = true -> strip s <> "".
Proof.
  intros Ht Hs. apply (has_byte_nonempty c).
  unfold strip. by apply rstrip_keeps_byte, lstrip_keeps_byte.
Qed.

Lemma strip_empty : strip "" = "".
Proof. reflexivity. Qed.

End Strings.

Lemma str_length_app s r : String.length (s +:+ r) = (String.length s + String.length r)%nat.
Proof. induction s as [|c s IH]; [reflexivity|]. rewrite str_app_cons. simpl. by rewrite IH. Qed.

(** [drop_while] with as many rounds as the string has bytes leaves no
    word of the table in front. *)
Lemma drop_while_done table n s :
  Forall (fun w => w <> "") table ->
  (String.length s <= n)%nat -> drop_one table (drop_while table n s) = None.
Proof.
  intros Ht. revert s. induction n as [|n IH]; intros s Hn; simpl.
  - destruct s; [|simpl in Hn; lia].
    clear -Ht. induction Ht as [|w table Hw _ IH]; [reflexivity|].
    simpl. destruct w; [done|]. exact IH.
  - destruct (drop_one table s) as [r|] eqn:E; [|exact E].
    apply IH. destruct (drop_one_app _ _ _ E) as (w & Hin & ->).
    rewrite Forall_forall in Ht. specialize (Ht w Hin).
    rewrite str_length_app in Hn. destruct w; [done|]. simpl in Hn. lia.
Qed.

Lemma lstrip_done s : drop_one whitespace_utf8 (lstrip s) = None.
Proof.
  apply drop_while_done; [|done].
  apply Forall_forall. intros w Hin Hw. subst w. revert Hin.
  apply (bool_decide_unpack _). vm_compute. reflexivity.
Qed.

(** ** Normalised content *)

Lemma fold_entries label bucket k acc :
  fold_left
    (fun sections '(i, result) =>
       let sections :=
         sections ++ [LF +:+ "[" +:+ label +:+ " " +:+ str_of_nat i +:+ "] " +:+ title result] in
       let sections := sections ++ ["Kaynak: " +:+ url result] in
       let sections := sections ++ ["İçerik: " +:+ content result +:+ LF] in
       sections)
    (enumerate bucket k) acc
  = acc ++ concat (imap (fun j r => entry label (k + j) r) bucket).
Proof.
  revert k acc. induction bucket as [|r bucket IH]; intros k acc; simpl.
  - by rewrite app_nil_r.
  - rewrite IH. rewrite Nat.add_0_r. rewrite <- !(assoc_L (++)). simpl.
    do 5 f_equal. apply imap_ext. intros j x _. simpl.
    by rewrite Nat.add_succ_r.
Qed.

Lemma append_section_spec header label bucket sections :
  append_section header label bucket sections = sections ++ section header label bucket.
Proof.
  unfold append_section, section. destruct bucket as [|r bucket]; simpl truthy; cbv iota.
  - by rewrite app_nil_r.
  - rewrite (fold_entries label (r :: bucket) 1). by rewrite <- (assoc_L (++)).
Qed.

Lemma prepare_content_normalize data :
  _prepare_content_for_analysis data = normalize data.
Proof.
  unfold _prepare_content_for_analysis, normalize.
  rewrite !append_section_spec. simpl. by rewrite <- (assoc_L (++)).
Qed.

Lemma section_header header label r bucket :
  header ∈ section header label (r :: bucket).
Proof. simpl. by left. Qed.

Lemma normalize_not_blank data :
  trend_results data ≠ [] ∨ problem_results data ≠ [] ∨ question_results data ≠ [] ->
  strip (normalize data) ≠ "".
Proof.
  intros H. apply (strip_keeps_byte "="%char); [vm_compute; reflexivity|].
  unfold normalize.
  destruct H as [H|[H|H]].
  - destruct (trend_results data) as [|r b]; [done|].
    eapply has_byte_join; [|shelve].
    apply elem_of_app; left. apply section_header.
  - destruct (problem_results data) as [|r b]; [done|].
    eapply has_byte_join; [|shelve].
    apply elem_of_app; right. apply elem_of_app; left. apply section_header.
  - destruct (question_results data) as [|r b]; [done|].
    eapply has_byte_join; [|shelve].
    apply elem_of_app; right. apply elem_of_app; right. apply section_header.
  Unshelve. all: vm_compute; reflexivity.
Qed.

Lemma normalize_blank_iff data :
  strip (normalize data) = ""
  <-> trend_results data = [] ∧ problem_results data = [] ∧ question_results data = [].
Proof.
  split.
  - intros H.
    destruct (trend_results data) as [|? ?] eqn:E1,
             (problem_results data) as [|? ?] eqn:E2,
             (question_results data) as [|? ?] eqn:E3; [done|..];
      exfalso; apply (normalize_not_blank data); try exact H;
      rewrite ?E1, ?E2, ?E3; auto.
  - intros (E1 & E2 & E3). unfold normalize. rewrite E1, E2, E3. reflexivity.
Qed.

(** ** Running a computation *)

Lemma wp_ret {A} (a : A) tr Q : Q (Returned a) tr -> wp (ret a) tr Q.
Proof. done. Qed.

Lemma wp_raise {A} e tr (Q : Outcome A -> list Event -> Prop) :
  Q (Raised e) tr -> wp (raise e) tr Q.
Proof. done. Qed.

Lemma wp_bind {A B} (m : M A) (k : A -> M B) tr Q :
  wp m tr (fun o tr' =>
             match o with
             | Returned a => wp (k a) tr' Q
             | Raised e => Q (Raised e) tr'
             end) ->
  wp (bind m k) tr Q.
Proof. unfold wp, bind. cbv beta. by destruct (m tr) as [[a|e] tr']. Qed.

Lemma wp_emit ev tr Q : Q (Returned tt) (tr ++ [ev]) -> wp (emit ev) tr Q.
Proof. done. Qed.

Lemma wp_eq {A} (m : M A) tr Q : wp m tr Q -> forall o tr', m tr = (o, tr') -> Q o tr'.
Proof. unfold wp. intros H o tr' E. by rewrite E in H. Qed.

Lemma searches_app tr1 tr2 : searches (tr1 ++ tr2) = searches tr1 ++ searches tr2.
Proof. apply flat_map_app. Qed.

Lemma generations_app tr1 tr2 :
  generations (tr1 ++ tr2) = generations tr1 ++ generations tr2.
Proof. apply flat_map_app. Qed.

Lemma warnings_app tr1 tr2 : warnings (tr1 ++ tr2) = warnings tr1 ++ warnings tr2.
Proof. apply flat_map_app. Qed.

Lemma quiet_refl tr : quiet tr tr.
Proof. done. Qed.

Lemma quiet_trans tr1 tr2 tr3 : quiet tr1 tr2 -> quiet tr2 tr3 -> quiet tr1 tr3.
Proof. unfold quiet. intros (?&?&?) (?&?&?). repeat split; congruence. Qed.

Lemma quiet_snoc tr tr' ev : quiet tr tr' -> silent ev = true -> quiet tr (tr' ++ [ev]).
Proof.
  unfold quiet. intros (Hs & Hg & Hw) Hev.
  rewrite searches_app, generations_app, warnings_app, Hs, Hg, Hw.
  destruct ev as [[]| | | | |]; try discriminate; simpl; by rewrite !app_nil_r.
Qed.

Ltac quiet_steps :=
  repeat (apply quiet_snoc; [|reflexivity]); try apply quiet_refl; try assumption.

(** The loop of [_execute_search] keeps the order of the items and adds no
    event; it raises at the first item that is not a [dict]. *)
Lemma for_each_items items acc tr :
  let body := fun results item =>
                bind (SearchResult_of_item item) (fun r => ret (results ++ [r])) in
  match results_of_items items with
  | Some rs => for_each items body acc tr = (Returned (acc ++ rs), tr)
  | None => exists msg, for_each items body acc tr = (Raised (AttributeError msg), tr)
  end.
Proof.
  intros body. revert acc. induction items as [|item items IH]; intros acc; simpl.
  - by rewrite app_nil_r.
  - destruct item as [t u c s|msg]; simpl.
    + unfold bind at 1. simpl. specialize (IH (acc ++ [result_of_fields t u c s])).
      destruct (results_of_items items) as [rs|].
      * unfold result_of_fields in IH |- *. rewrite IH. by rewrite <- (assoc_L (++)).
      * exact IH.
    + by exists msg.
Qed.

Lemma wp_execute_search self q n tr (Q : Outcome (list SearchResult) -> list Event -> Prop) :
  (forall tr',
     let a := tavily_client self
                (tr ++ [EvLog INFO ("Tavily araması yapılıyor: '" +:+ slice_to 50 q +:+ "...'")])
                q "advanced" n false in
     searches tr' = searches tr ++ [(q, n, a)] ->
     generations tr' = generations tr ->
     warnings tr' = warnings tr ->
     Q (search_outcome a) tr') ->
  wp (_execute_search self q n) tr Q.
Proof.
  intros H. unfold wp, _execute_search, try_except, bind, logger, emit, tavily_search, call.
  cbn beta iota zeta.
  set (t := tr ++ [EvLog INFO _]).
  cbn zeta in H. fold t in H.
  destruct (tavily_client self t q "advanced" n false) as [response|e] eqn:Ea; cbn beta iota.
  - pose proof (for_each_items (default [] (results response)) []
                  (t ++ [EvSearch q "advanced" n false (Returned response)])) as Hloop.
    cbn zeta in Hloop. unfold bind in Hloop. unfold search_outcome, bucket_of in H.
    destruct (results_of_items (default [] (results response))) as [rs|].
    + rewrite Hloop. cbn. apply H; subst t;
        rewrite ?searches_app, ?generations_app, ?warnings_app; simpl;
        by rewrite ?app_nil_r.
    + destruct Hloop as [msg ->]. cbn. apply H; subst t;
        rewrite ?searches_app, ?generations_app, ?warnings_app; simpl;
        by rewrite ?app_nil_r.
  - unfold search_outcome in H. destruct (is_Exception e); cbn; apply H; subst t;
      rewrite ?searches_app, ?generations_app, ?warnings_app; simpl;
      by rewrite ?app_nil_r.
Qed.

Lemma wp_analyze_with_llm self content topic tr (Q : Outcome string -> list Event -> Prop) :
  (forall tr',
     let g := gemini_client self
                (tr ++ [EvLog INFO ("LLM analizi başlatılıyor (" +:+ model self +:+ ")...")])
                (model self) (prompt_of content topic) in
     searches tr' = searches tr ->
     generations tr' = generations tr ++ [(model self, prompt_of content topic, g)] ->
     warnings tr' = warnings tr ->
     Q (llm_outcome g) tr') ->
  wp (_analyze_with_llm self content topic) tr Q.
Proof.
  intros H. unfold wp, _analyze_with_llm, try_except, bind, logger, emit, generate_content, call.
  cbn beta iota zeta.
  set (t := tr ++ [EvLog INFO _]).
  cbn zeta in H. fold t in H.
  destruct (gemini_client self t (model self) (prompt_of content topic))
    as [response|e] eqn:Ea; cbn beta iota.
  - unfold llm_outcome, analysis_of in H.
    destruct (text response) as [txt|]; cbn; apply H; subst t;
      rewrite ?searches_app, ?generations_app, ?warnings_app; simpl;
      by rewrite ?app_nil_r.
  - unfold llm_outcome, analysis_of in H. destruct (is_Exception e); cbn; apply H; subst t;
      rewrite ?searches_app, ?generations_app, ?warnings_app; simpl;
      by rewrite ?app_nil_r.
Qed.

Section Runs.

Variable clock : list Event -> datetime.
Variable os_path_join : string -> string -> string.
Variable json_dumps : PyObj -> string.
Variable file_system : list Event -> string -> string -> Outcome unit.

Implicit Types (self : ResearchAgent) (tr : list Event) (data : ResearchData).

Lemma wp_datetime_now tr (Q : Outcome datetime -> list Event -> Prop) :
  Q (Returned (clock tr)) (tr ++ [EvNow (clock tr)]) -> wp (datetime_now clock) tr Q.
Proof. done. Qed.

Lemma queries_dict_trend topic y :
  queries_dict topic y !! "trend"
  = Some (topic +:+ " latest trends news " +:+ str_of_Z y).
Proof. unfold queries_dict. by simplify_map_eq. Qed.

Lemma queries_dict_problem topic y :
  queries_dict topic y !! "problem"
  = Some ("site:reddit.com " +:+ topic
          +:+ " 'struggling with' OR 'hate' OR 'hard to' OR 'problem with'").
Proof. unfold queries_dict. by simplify_map_eq. Qed.

Lemma queries_dict_question topic y :
  queries_dict topic y !! "question"
  = Some (topic +:+ " how to fix OR alternative to OR best solution for").
Proof. unfold queries_dict. by simplify_map_eq. Qed.

Lemma wp_generate_queries self topic tr (Q : Outcome (gmap string string) -> list Event -> Prop) :
  (forall tr', quiet tr tr' -> Q (Returned (queries_dict topic (year (clock tr)))) tr') ->
  wp (_generate_queries clock self topic) tr Q.
Proof.
  intros H. unfold _generate_queries.
  apply wp_bind, wp_datetime_now. apply wp_bind, wp_emit. apply wp_ret.
  apply H. quiet_steps.
Qed.

Lemma wp_print_report data tr (Q : Outcome unit -> list Event -> Prop) :
  (forall tr', quiet tr tr' -> Q (Returned tt) tr') -> wp (_print_report data) tr Q.
Proof.
  intros H. unfold _print_report, print. cbv zeta.
  do 11 apply wp_bind, wp_emit. apply wp_emit.
  apply H. quiet_steps.
Qed.

Lemma wp_write_file path txt tr (Q : Outcome unit -> list Event -> Prop) :
  (forall tr', quiet tr tr' -> file_system tr path txt = Returned tt -> Q (Returned tt) tr') ->
  (forall tr' e, file_system tr path txt = Raised e -> Q (Raised e) tr') ->
  wp (write_file file_system path txt) tr Q.
Proof.
  intros H1 H2. unfold wp, write_file, call. cbn.
  destruct (file_system tr path txt) as [[]|e] eqn:E.
  - apply H1; [quiet_steps | done].
  - by eapply H2.
Qed.

Lemma wp_save_markdown_report self data dir tr (Q : Outcome string -> list Event -> Prop) :
  (forall tr' path, quiet tr tr' -> Q (Returned path) tr') ->
  (forall tr' e t p x, file_system t p x = Raised e -> Q (Raised e) tr') ->
  wp (_save_markdown_report clock os_path_join file_system self data dir) tr Q.
Proof.
  intros H1 H2. unfold _save_markdown_report.
  apply wp_bind, wp_datetime_now. cbv zeta.
  apply wp_bind, wp_write_file.
  - intros tr' Hq _. apply wp_bind, wp_emit. apply wp_ret. apply H1.
    apply quiet_snoc; [|reflexivity]. eapply quiet_trans; [|exact Hq]. quiet_steps.
  - intros tr' e E. by eapply H2.
Qed.

Lemma wp_save_json_data self data dir tr (Q : Outcome string -> list Event -> Prop) :
  (forall tr' path, quiet tr tr' -> Q (Returned path) tr') ->
  (forall tr' e t p x, file_system t p x = Raised e -> Q (Raised e) tr') ->
  wp (_save_json_data clock os_path_join json_dumps file_system self data dir) tr Q.
Proof.
  intros H1 H2. unfold _save_json_data.
  apply wp_bind, wp_datetime_now. cbv zeta.
  apply wp_bind, wp_write_file.
  - intros tr' Hq _. apply wp_bind, wp_emit. apply wp_ret. apply H1.
    apply quiet_snoc; [|reflexivity]. eapply quiet_trans; [|exact Hq]. quiet_steps.
  - intros tr' e E. by eapply H2.
Qed.

Lemma search_outcome_cases (a : Outcome SearchResponse) :
  search_outcome a = Returned (bucket_of a)
  ∨ ∃ e, search_outcome a = Raised e ∧ a = Raised e ∧ is_Exception e = false.
Proof.
  destruct a as [r|e]; simpl; [by left|].
  destruct (is_Exception e) eqn:E; [by left|]. right. by exists e.
Qed.

Lemma llm_outcome_cases (g : Outcome GenerateContentResponse) :
  llm_outcome g = Returned (analysis_of g)
  ∨ ∃ e, llm_outcome g = Raised e ∧ g = Raised e ∧ is_Exception e = false.
Proof.
  destruct g as [r|e]; simpl; [by left|].
  destruct (is_Exception e) eqn:E; [by left|]. right. by exists e.
Qed.

(** What [research] returns and what it did, and what it raises when it
    does not return. *)
Lemma research_wp self subject dir n save tr :
  wp (research clock os_path_join json_dumps file_system self subject dir n save) tr
    (research_post file_system self subject n save tr).
Proof.
  unfold research, logger, print.
  apply wp_bind, wp_emit. apply wp_bind, wp_emit. apply wp_bind, wp_datetime_now.
  set (ts := strftime _ _).
  apply wp_bind, wp_generate_queries. intros tr0 Hq0.
  set (y := year (clock _)).
  assert (quiet tr tr0) as (Hs0 & Hg0 & Hw0)
    by (eapply quiet_trans; [|exact Hq0]; quiet_steps).
  clear Hq0.
  apply wp_bind, wp_emit.
  (* the three searches *)
  unfold getitem at 1. rewrite queries_dict_trend. apply wp_bind, wp_ret.
  apply wp_bind, wp_execute_search. intros tr1 a1 Hs1 Hg1 Hw1.
  destruct (search_outcome_cases a1)
    as [->|(e & -> & E & He)]; [|left; split; [done|left; eauto]].
  unfold getitem at 1. rewrite queries_dict_problem. apply wp_bind, wp_ret.
  apply wp_bind, wp_execute_search. intros tr2 a2 Hs2 Hg2 Hw2.
  destruct (search_outcome_cases a2)
    as [->|(e & -> & E & He)]; [|left; split; [done|left; eauto]].
  unfold getitem at 1. rewrite queries_dict_question. apply wp_bind, wp_ret.
  apply wp_bind, wp_execute_search. intros tr3 a3 Hs3 Hg3 Hw3.
  destruct (search_outcome_cases a3)
    as [->|(e & -> & E & He)]; [|left; split; [done|left; eauto]].
  rewrite searches_app in Hs1. rewrite generations_app in Hg1. rewrite warnings_app in Hw1.
  simpl in Hs1, Hg1, Hw1. rewrite app_nil_r in Hs1, Hg1, Hw1.
  rewrite Hs0 in Hs1. rewrite Hg0 in Hg1. rewrite Hw0 in Hw1.
  rewrite Hs1 in Hs2. rewrite Hg1 in Hg2. rewrite Hw1 in Hw2.
  rewrite Hs2 in Hs3. rewrite Hg2 in Hg3. rewrite Hw2 in Hw3.
  rewrite <- !(assoc_L (++)) in Hs3. simpl in Hs3.
  clear Hs0 Hg0 Hw0 Hs1 Hg1 Hw1 Hs2 Hg2 Hw2.
  set (collected := set_question_results _ _).
  (* what follows the analysis *)
  assert (forall data' trA,
    research_post file_system self subject n save tr (Returned data') trA ->
    wp (bind (_print_report data')
          (fun _ =>
             bind (if save
                   then
                     bind (emit (EvPrint (LF +:+ "💾 Dosyalar kaydediliyor...")))
                       (fun _ =>
                          bind (_save_markdown_report clock os_path_join file_system self data' dir)
                            (fun md_path =>
                               bind (_save_json_data clock os_path_join json_dumps file_system
                                       self data' dir)
                                 (fun json_path =>
                                    bind (emit (EvPrint ("✅ Markdown raporu: " +:+ md_path)))
                                      (fun _ => emit (EvPrint ("✅ JSON verisi: " +:+ json_path))))))
                   else ret tt)
               (fun _ =>
                  bind (emit (EvPrint (LF +:+ "✨ Araştırma tamamlandı!" +:+ LF)))
                    (fun _ => ret data'))))
      trA (research_post file_system self subject n save tr)) as Hreport.
  { intros data' trA Hpost.
    assert (forall trB, quiet trA trB ->
      wp (bind (emit (EvPrint (LF +:+ "✨ Araştırma tamamlandı!" +:+ LF)))
            (fun _ => ret data')) trB
        (research_post file_system self subject n save tr)) as Hend.
    { intros trB HqB. apply wp_bind, wp_emit. apply wp_ret.
      assert (quiet trA (trB ++ [EvPrint (LF +:+ "✨ Araştırma tamamlandı!" +:+ LF)]))
        as (HsB & HgB & HwB) by (apply quiet_snoc; [exact HqB|reflexivity]).
      unfold research_post in Hpost |- *. by rewrite HsB, HgB, HwB. }
    apply wp_bind, wp_print_report. intros trB HqB.
    destruct save.
    - apply wp_bind. apply wp_bind, wp_emit.
      apply wp_bind, wp_save_markdown_report;
        [|intros; right; split; [done|eauto]].
      intros trC md_path HqC.
      apply wp_bind, wp_save_json_data;
        [|intros; right; split; [done|eauto]].
      intros trD json_path HqD.
      apply wp_bind, wp_emit. apply wp_emit.
      apply Hend.
      apply quiet_snoc; [|reflexivity]. apply quiet_snoc; [|reflexivity].
      eapply quiet_trans; [|exact HqD]. eapply quiet_trans; [|exact HqC].
      apply quiet_snoc; [|reflexivity]. exact HqB.
    - apply wp_bind, wp_ret. by apply Hend. }
  (* the analysis *)
  apply wp_bind.
  destruct (bool_decide (strip (_prepare_content_for_analysis collected) = "")) eqn:Hblank.
  - apply wp_bind, wp_emit. apply wp_ret.
    apply Hreport. exists y, a1, a2, a3.
    change (_prepare_content_for_analysis (set_analysis _ collected))
      with (_prepare_content_for_analysis collected).
    rewrite Hblank, searches_app, generations_app, warnings_app. simpl.
    rewrite !app_nil_r. by rewrite Hs3, Hg3, Hw3.
  - apply wp_bind, wp_emit.
    apply wp_bind, wp_analyze_with_llm. intros tr4 g Hs4 Hg4 Hw4.
    destruct (llm_outcome_cases g)
      as [->|(e & -> & E & He)]; [|left; split; [done|right; eauto]].
    apply wp_ret. apply Hreport. exists y, a1, a2, a3.
    change (_prepare_content_for_analysis (set_analysis _ collected))
      with (_prepare_content_for_analysis collected).
    rewrite Hblank, Hs4, Hg4, Hw4, searches_app, generations_app, warnings_app. simpl.
    rewrite !app_nil_r. rewrite Hs3, Hg3, Hw3.
    repeat (split; [done|]). by exists g.
Qed.

End Runs.

(** ** The queries *)

Lemma last_byte_cons c s :
  last_byte (String c s) = match s with "" => Some c | String _ _ => last_byte s end.
Proof. reflexivity. Qed.

Lemma last_byte_app s r : r <> "" -> last_byte (s +:+ r) = last_byte r.
Proof.
  intros Hr. induction s as [|c s IH]; [reflexivity|].
  rewrite str_app_cons, last_byte_cons, IH.
  destruct (s +:+ r) eqn:E; [|reflexivity].
  by apply str_app_eq_nil in E as [_ ?].
Qed.

Lemma last_byte_all P s c :
  all_bytes P s = true -> last_byte s = Some c -> P c = true.
Proof.
  induction s as [|a s IH]; [discriminate|].
  simpl all_bytes. intros [Ha Hs]%andb_prop. rewrite last_byte_cons.
  destruct s; [by intros [= <-]|]. by apply IH.
Qed.

Lemma uint_digits d : all_bytes is_digit (NilEmpty.string_of_uint d) = true.
Proof. induction d; simpl; [reflexivity|exact IHd..]. Qed.

Lemma last_byte_is_Some s : s <> "" -> is_Some (last_byte s).
Proof.
  induction s as [|a s IH]; [done|]. intros _. rewrite last_byte_cons.
  destruct s; [by eexists|]. by apply IH.
Qed.

(** [str(n)] for an [int] ends with a digit. *)
Lemma str_of_Z_last y : exists c, last_byte (str_of_Z y) = Some c /\ is_digit c = true.
Proof.
  unfold str_of_Z, NilZero.string_of_int.
  assert (forall d, NilZero.string_of_uint d <> ""
                    /\ all_bytes is_digit (NilZero.string_of_uint d) = true) as Hu.
  { intros d. unfold NilZero.string_of_uint.
    destruct d; (split; [discriminate|]); try reflexivity;
      apply (uint_digits (_ d)). }
  destruct (Z.to_int y) as [d|d]; destruct (Hu d) as [Hne Hd].
  - destruct (last_byte_is_Some _ Hne) as [c Hc]. exists c. split; [done|].
    by eapply last_byte_all.
  - rewrite last_byte_cons. destruct (NilZero.string_of_uint d) eqn:E; [done|].
    rewrite <- E in *. destruct (last_byte_is_Some _ Hne) as [c Hc]. exists c.
    split; [done|]. by eapply last_byte_all.
Qed.

Lemma last_byte_neq s r : last_byte s <> last_byte r -> s <> r.
Proof. congruence. Qed.

Section Properties.

Variable clock : list Event -> datetime.
Variable os_path_join : string -> string -> string.
Variable json_dumps : PyObj -> string.
Variable file_system : list Event -> string -> string -> Outcome unit.

Implicit Types (self : ResearchAgent) (tr : list Event) (data : ResearchData).

(** C5. For every topic and every reading of the year, [_generate_queries]
    returns the dict [queries_dict topic year], a function of the topic and
    the year alone; its keys are exactly "trend", "problem" and "question",
    and the three queries are non-empty and pairwise distinct. *)
Theorem generate_queries_three_distinct self subject tr :
  let queries := queries_dict subject (year (clock tr)) in
  _generate_queries clock self subject tr
    = (Returned queries,
       tr ++ [EvNow (clock tr);
              EvLog INFO ("'" +:+ subject +:+ "' için 3 farklı sorgu oluşturuldu.")])
  ∧ dom queries = ({[ "trend"; "problem"; "question" ]} : gset string)
  ∧ size queries = 3%nat
  ∧ ∃ q1 q2 q3,
      queries !! "trend" = Some q1 ∧ queries !! "problem" = Some q2
      ∧ queries !! "question" = Some q3
      ∧ q1 ≠ "" ∧ q2 ≠ "" ∧ q3 ≠ ""
      ∧ q1 ≠ q2 ∧ q1 ≠ q3 ∧ q2 ≠ q3.
Proof.
  cbv zeta. set (y := year (clock tr)).
  split; [|split; [|split]].
  - unfold _generate_queries, bind, datetime_now, logger, emit, ret. cbn.
    by rewrite <- (assoc_L (++)).
  - unfold queries_dict. rewrite !dom_insert_L, dom_singleton_L. set_solver.
  - unfold queries_dict.
    rewrite !map_size_insert_None, map_size_singleton; [done|by simplify_map_eq..].
  - eexists _, _, _.
    split; [apply queries_dict_trend|].
    split; [apply queries_dict_problem|].
    split; [apply queries_dict_question|].
    destruct (str_of_Z_last y) as (c & Hc & Hdigit).
    assert (str_of_Z y ≠ "") as Hy by (intros E; by rewrite E in Hc).
    assert (last_byte (subject +:+ " latest trends news " +:+ str_of_Z y) = Some c) as H1.
    { rewrite last_byte_app; [|by intros [_ ?]%str_app_eq_nil].
      by rewrite last_byte_app. }
    assert (last_byte ("site:reddit.com " +:+ subject
              +:+ " 'struggling with' OR 'hate' OR 'hard to' OR 'problem with'")
            = Some "'"%char) as H2.
    { rewrite last_byte_app; [|by intros [_ ?]%str_app_eq_nil].
      by rewrite last_byte_app. }
    assert (last_byte (subject +:+ " how to fix OR alternative to OR best solution for")
            = Some "r"%char) as H3.
    { by rewrite last_byte_app. }
    repeat split.
    + intros E. by rewrite E in H1.
    + intros E. by rewrite E in H2.
    + intros E. by rewrite E in H3.
    + apply last_byte_neq. rewrite H1, H2. intros [= ->]. discriminate.
    + apply last_byte_neq. rewrite H1, H3. intros [= ->]. discriminate.
    + apply last_byte_neq. by rewrite H2, H3.
Qed.

(** C6. The normalised content is one text block made of three labelled
    sections in the order trend, problem, question, joined by line breaks.
    A section is there only if its bucket is non-empty; it is its header
    followed, for each result in bucket order, by the 1-based index with
    the title, the source URL, and the content snippet.  With three empty
    buckets the content is the empty string. *)
Theorem prepare_content_sections data :
  _prepare_content_for_analysis data
    = join LF
        (section "=== TREND VE HABER SONUÇLARI ===" "Trend" (trend_results data)
         ++ section (LF +:+ "=== SORUN VE ŞİKAYET SONUÇLARI (Reddit/Forum) ===") "Şikayet"
              (problem_results data)
         ++ section (LF +:+ "=== SORU VE ÇÖZÜM ARAMA SONUÇLARI ===") "Soru"
              (question_results data))
  ∧ (∀ header label, section header label [] = [])
  ∧ (∀ header label r bucket,
       section header label (r :: bucket)
       = header :: concat (imap (λ k r, entry label (S k) r) (r :: bucket)))
  ∧ (∀ label index r,
       entry label index r
       = [LF +:+ "[" +:+ label +:+ " " +:+ str_of_nat index +:+ "] " +:+ title r;
          "Kaynak: " +:+ url r;
          "İçerik: " +:+ content r +:+ LF])
  ∧ (trend_results data = [] ∧ problem_results data = [] ∧ question_results data = []
     → _prepare_content_for_analysis data = "").
Proof.
  split; [apply prepare_content_normalize|].
  repeat split.
  intros (E1 & E2 & E3). rewrite prepare_content_normalize.
  unfold normalize. by rewrite E1, E2, E3.
Qed.

(** ** The document form *)

Lemma join_app sep l1 l2 :
  l1 ≠ [] -> l2 ≠ [] -> join sep (l1 ++ l2) = join sep l1 +:+ sep +:+ join sep l2.
Proof.
  unfold join. intros H1 H2. induction l1 as [|x l1 IH]; [done|].
  destruct l1 as [|y l1].
  - simpl. by destruct l2.
  - change (String.concat sep ((x :: y :: l1) ++ l2))
      with (x +:+ sep +:+ String.concat sep ((y :: l1) ++ l2)).
    rewrite IH by done. simpl. by rewrite !str_app_assoc.
Qed.

(** The lines in the middle of a joined text occur in it. *)
Lemma join_occurs sep before lines after :
  before ≠ [] -> lines ≠ [] -> after ≠ [] ->
  occurs_in (join sep lines) (join sep (before ++ lines ++ after)).
Proof.
  intros H1 H2 H3. exists (join sep before +:+ sep), (sep +:+ join sep after).
  rewrite join_app by (done || by destruct lines).
  rewrite join_app by done. by rewrite !str_app_assoc.
Qed.

Lemma fold_lines (f : SearchResult -> string) results acc :
  fold_left (fun lines result => lines ++ [f result]) results acc = acc ++ map f results.
Proof.
  revert acc. induction results as [|r results IH]; intros acc; simpl.
  - by rewrite app_nil_r.
  - rewrite IH. by rewrite <- (assoc_L (++)).
Qed.

Lemma format_url_list_lines r results :
  _format_url_list (r :: results) = join LF (map link_line (r :: results)).
Proof.
  unfold _format_url_list. simpl truthy. cbv iota beta. simpl negb. cbv iota.
  by rewrite (fold_lines link_line).
Qed.

(** C8. A bucket without results is rendered as the fixed line
    "- Sonuç bulunamadı"; a bucket with results as one link line per
    result, title as link text and url as target, in bucket order; the
    rendering is never empty; and the document form holds the three
    renderings under their headings. *)
Theorem format_url_list_placeholder_or_links data :
  _format_url_list [] = "- Sonuç bulunamadı"
  ∧ (∀ results, results ≠ [] →
       _format_url_list results
       = join LF (map (λ r, "- [" +:+ title r +:+ "](" +:+ url r +:+ ")") results))
  ∧ (∀ results, _format_url_list results ≠ "")
  ∧ occurs_in
      ("### Trend Kaynakları" +:+ LF +:+
       _format_url_list (trend_results data) +:+ LF +:+
       LF +:+
       "### Sorun/Şikayet Kaynakları" +:+ LF +:+
       _format_url_list (problem_results data) +:+ LF +:+
       LF +:+
       "### Soru/Çözüm Kaynakları" +:+ LF +:+
       _format_url_list (question_results data) +:+ LF)
      (report_content data).
Proof.
  split; [reflexivity|]. split; [|split].
  - intros [|r results] H; [done|]. apply format_url_list_lines.
  - intros [|r results]; [done|]. rewrite format_url_list_lines.
    apply (has_byte_nonempty "-"%char). simpl map.
    eapply has_byte_join; [by left|]. reflexivity.
  - apply (join_occurs LF
      ["# 🔍 Pazar Araştırma Raporu"; "";
       "**Konu:** " +:+ topic data +:+ "  ";
       "**Tarih:** " +:+ timestamp data +:+ "  ";
       "**Oluşturan:** Market & Trend Research Agent"; ""; "---"; "";
       analysis data; ""; "---"; "";
       "## 📊 Araştırma İstatistikleri"; "";
       "| Kategori | Sonuç Sayısı |";
       "|----------|--------------|";
       "| Trend Sonuçları | " +:+ str_of_nat (length (trend_results data)) +:+ " |";
       "| Sorun/Şikayet Sonuçları | " +:+ str_of_nat (length (problem_results data)) +:+ " |";
       "| Soru/Çözüm Sonuçları | " +:+ str_of_nat (length (question_results data)) +:+ " |";
       "| **Toplam** | **" +:+ str_of_nat (total_results data) +:+ "** |";
       ""; "---"; ""; "## 🔗 Kaynak URL'leri"; ""]
      ["### Trend Kaynakları"; _format_url_list (trend_results data); "";
       "### Sorun/Şikayet Kaynakları"; _format_url_list (problem_results data); "";
       "### Soru/Çözüm Kaynakları"; _format_url_list (question_results data); ""]
      ["---"; "";
       "*Bu rapor, Market & Trend Research Agent tarafından otomatik olarak oluşturulmuştur.*";
       ""]); done.
Qed.

(** C7. The total shown in the statistics table of the document form,
    under the three per-bucket counts, and the total recorded in the
    metadata of the data form are the sum of the lengths of the three
    buckets; with three empty buckets both are 0. *)
Theorem totals_are_sum_of_bucket_lengths self data :
  let n1 := length (trend_results data) in
  let n2 := length (problem_results data) in
  let n3 := length (question_results data) in
  occurs_in
    ("| Trend Sonuçları | " +:+ str_of_nat n1 +:+ " |" +:+ LF +:+
     "| Sorun/Şikayet Sonuçları | " +:+ str_of_nat n2 +:+ " |" +:+ LF +:+
     "| Soru/Çözüm Sonuçları | " +:+ str_of_nat n3 +:+ " |" +:+ LF +:+
     "| **Toplam** | **" +:+ str_of_nat (n1 + n2 + n3) +:+ "** |")
    (report_content data)
  ∧ (∃ metadata,
       json_data self data !! "metadata" = Some (PDict metadata)
       ∧ metadata !! "total_results" = Some (PInt (Z.of_nat (n1 + n2 + n3))))
  ∧ (n1 = 0%nat → n2 = 0%nat → n3 = 0%nat →
     occurs_in "| **Toplam** | **0** |" (report_content data)
     ∧ ∃ metadata,
         json_data self data !! "metadata" = Some (PDict metadata)
         ∧ metadata !! "total_results" = Some (PInt 0)).
Proof.
  cbv zeta.
  assert (occurs_in
    ("| Trend Sonuçları | " +:+ str_of_nat (length (trend_results data)) +:+ " |" +:+ LF +:+
     "| Sorun/Şikayet Sonuçları | " +:+ str_of_nat (length (problem_results data))
       +:+ " |" +:+ LF +:+
     "| Soru/Çözüm Sonuçları | " +:+ str_of_nat (length (question_results data))
       +:+ " |" +:+ LF +:+
     "| **Toplam** | **" +:+ str_of_nat (total_results data) +:+ "** |")
    (report_content data)) as Htable.
  { destruct (join_occurs LF
      ["# 🔍 Pazar Araştırma Raporu"; "";
       "**Konu:** " +:+ topic data +:+ "  ";
       "**Tarih:** " +:+ timestamp data +:+ "  ";
       "**Oluşturan:** Market & Trend Research Agent"; ""; "---"; "";
       analysis data; ""; "---"; "";
       "## 📊 Araştırma İstatistikleri"; "";
       "| Kategori | Sonuç Sayısı |";
       "|----------|--------------|"]
      ["| Trend Sonuçları | " +:+ str_of_nat (length (trend_results data)) +:+ " |";
       "| Sorun/Şikayet Sonuçları | " +:+ str_of_nat (length (problem_results data)) +:+ " |";
       "| Soru/Çözüm Sonuçları | " +:+ str_of_nat (length (question_results data)) +:+ " |";
       "| **Toplam** | **" +:+ str_of_nat (total_results data) +:+ "** |"]
      [""; "---"; ""; "## 🔗 Kaynak URL'leri"; "";
       "### Trend Kaynakları"; _format_url_list (trend_results data); "";
       "### Sorun/Şikayet Kaynakları"; _format_url_list (problem_results data); "";
       "### Soru/Çözüm Kaynakları"; _format_url_list (question_results data); "";
       "---"; "";
       "*Bu rapor, Market & Trend Research Agent tarafından otomatik olarak oluşturulmuştur.*";
       ""]) as (pre & post & E); [done..|].
    exists pre, post. etrans; [exact E|]. unfold join. simpl String.concat.
    by rewrite !str_app_assoc. }
  assert (∃ metadata,
       json_data self data !! "metadata" = Some (PDict metadata)
       ∧ metadata !! "total_results" = Some (PInt (Z.of_nat (total_results data)))) as Hmeta.
  { eexists. split; [unfold json_data; by simplify_map_eq|]. by simplify_map_eq. }
  split; [exact Htable|]. split; [exact Hmeta|].
  intros E1 E2 E3. unfold total_results in Htable, Hmeta.
  rewrite E1, E2, E3 in Htable, Hmeta. split; [|exact Hmeta].
  destruct Htable as (pre & post & E).
  exists (pre +:+ "| Trend Sonuçları | 0 |" +:+ LF +:+
          "| Sorun/Şikayet Sonuçları | 0 |" +:+ LF +:+
          "| Soru/Çözüm Sonuçları | 0 |" +:+ LF), post.
  rewrite E. by rewrite !str_app_assoc.
Qed.

(** ** The data form *)

Lemma SearchResult_of_asdict r : SearchResult_of_dict (asdict r) = Some r.
Proof. destruct r as [t u c s]. unfold SearchResult_of_dict, asdict. by simplify_map_eq. Qed.

Lemma bucket_of_json_asdict bucket :
  bucket_of_json (Some (PList (map asdict bucket))) = Some bucket.
Proof.
  unfold bucket_of_json. apply mapM_Some.
  induction bucket as [|r bucket IH]; constructor; [apply SearchResult_of_asdict|exact IH].
Qed.

(** C4, as the code has it.  The data form holds the topic, the
    timestamp, the three result sequences with every result as its four
    fields (title, url, content, score) in order, the analysis, and a
    metadata block with the model identifier and the total number of
    results.  It has these seven keys and no other: the free-form
    [raw_data] map of the record is not part of it.  The record without
    its [raw_data] can be read back from the data form. *)
Theorem json_data_mirrors_record self data :
  let j := json_data self data in
  j !! "topic" = Some (PStr (topic data))
  ∧ j !! "timestamp" = Some (PStr (timestamp data))
  ∧ j !! "trend_results" = Some (PList (map asdict (trend_results data)))
  ∧ j !! "problem_results" = Some (PList (map asdict (problem_results data)))
  ∧ j !! "question_results" = Some (PList (map asdict (question_results data)))
  ∧ j !! "analysis" = Some (PStr (analysis data))
  ∧ j !! "metadata"
    = Some (PDict {[ "model_used" := PStr (model self);
                     "total_results" :=
                       PInt (Z.of_nat (length (trend_results data)
                                       + length (problem_results data)
                                       + length (question_results data))) ]})
  ∧ dom j = ({[ "topic"; "timestamp"; "trend_results"; "problem_results";
               "question_results"; "analysis"; "metadata" ]} : gset string)
  ∧ (∀ r, asdict r
          = PDict {[ "title" := PStr (title r); "url" := PStr (url r);
                     "content" := PStr (content r); "score" := PFloat (score r) ]})
  ∧ record_of_json j = Some (without_raw_data data).
Proof.
  cbv zeta.
  assert (json_data self data !! "topic" = Some (PStr (topic data))) as H1
    by (unfold json_data; by simplify_map_eq).
  assert (json_data self data !! "timestamp" = Some (PStr (timestamp data))) as H2
    by (unfold json_data; by simplify_map_eq).
  assert (json_data self data !! "trend_results"
          = Some (PList (map asdict (trend_results data)))) as H3
    by (unfold json_data; by simplify_map_eq).
  assert (json_data self data !! "problem_results"
          = Some (PList (map asdict (problem_results data)))) as H4
    by (unfold json_data; by simplify_map_eq).
  assert (json_data self data !! "question_results"
          = Some (PList (map asdict (question_results data)))) as H5
    by (unfold json_data; by simplify_map_eq).
  assert (json_data self data !! "analysis" = Some (PStr (analysis data))) as H6
    by (unfold json_data; by simplify_map_eq).
  repeat (split; [assumption|]).
  split; [unfold json_data; by simplify_map_eq|].
  split; [unfold json_data; rewrite !dom_insert_L, dom_singleton_L; set_solver|].
  split; [done|].
  unfold record_of_json. rewrite H1, H2, H3, H4, H5, H6.
  by rewrite !bucket_of_json_asdict.
Qed.

(** C4, as stated, fails: two records that differ in their free-form map
    have the same data form, so the data form does not hold every field of
    the record and the record cannot be read back from it. *)
Lemma json_data_forgets_raw_data :
  Scenario.record ≠ Scenario.record_with_raw_data
  ∧ json_data Scenario.agent Scenario.record
    = json_data Scenario.agent Scenario.record_with_raw_data
  ∧ ¬ ∃ read : gmap string PyObj -> ResearchData,
        ∀ data, read (json_data Scenario.agent data) = data.
Proof.
  assert (Scenario.record ≠ Scenario.record_with_raw_data) as Hne.
  { intros E. apply (f_equal raw_data) in E.
    apply (f_equal (fun m => m !! "source")) in E. by vm_compute in E. }
  assert (json_data Scenario.agent Scenario.record
          = json_data Scenario.agent Scenario.record_with_raw_data) as Heq
    by reflexivity.
  split; [exact Hne|]. split; [exact Heq|].
  intros [read Hread]. apply Hne.
  rewrite <- (Hread Scenario.record), <- (Hread Scenario.record_with_raw_data).
  by rewrite Heq.
Qed.

(** ** Recovery from provider failures *)

Lemma research_returned self subject dir n save tr out tr' :
  research clock os_path_join json_dumps file_system self subject dir n save tr = (out, tr') ->
  research_post file_system self subject n save tr out tr'.
Proof. apply wp_eq, research_wp. Qed.

(** [bucket_of] keeps the provider's items in their order, one result per
    item. *)
Lemma results_of_items_Forall2 items :
  (∀ item, item ∈ items → ∃ t u c s, item = ItemDict t u c s) ->
  ∃ rs, results_of_items items = Some rs
        ∧ Forall2 (λ item r, ∃ t u c s, item = ItemDict t u c s ∧ r = result_of_fields t u c s)
            items rs.
Proof.
  induction items as [|item items IH]; intros H.
  - exists []. by split; [|constructor].
  - destruct (H item) as (t & u & c & s & ->); [by left|].
    destruct IH as (rs & E & HF); [intros i Hi; apply H; by right|].
    exists (result_of_fields t u c s :: rs). simpl. rewrite E.
    split; [done|]. constructor; [by exists t, u, c, s|done].
Qed.

(** C1. When the call to the search provider raises an [Exception],
    [_execute_search] logs the error and returns the empty list instead of
    raising.  And the run goes on: when the providers raise nothing but
    [Exception]s and the files can be written (or are not asked for),
    [research] makes its three searches and returns a record in which the
    bucket of every intent is what the provider answered for it, empty for
    an intent whose call failed. *)
Theorem execute_search_recovers_from_provider_failure self max_results :
  (∀ query tr e,
     tavily_client self
       (tr ++ [EvLog INFO ("Tavily araması yapılıyor: '" +:+ slice_to 50 query +:+ "...'")])
       query "advanced" max_results false = Raised e →
     is_Exception e = true →
     _execute_search self query max_results tr
     = (Returned [],
        tr ++ [EvLog INFO ("Tavily araması yapılıyor: '" +:+ slice_to 50 query +:+ "...'");
               EvSearch query "advanced" max_results false (Raised e);
               EvLog ERROR ("Tavily arama hatası: " +:+ exc_str e)]))
  ∧ (∀ subject dir save tr,
       (∀ t q e, tavily_client self t q "advanced" max_results false = Raised e →
                 is_Exception e = true) →
       (∀ t c e, gemini_client self t (model self) c = Raised e → is_Exception e = true) →
       (save = false ∨ ∀ t p x, file_system t p x = Returned tt) →
       ∃ data tr' y a1 a2 a3,
         research clock os_path_join json_dumps file_system self subject dir max_results save tr
         = (Returned data, tr')
         ∧ searches tr' = searches tr ++
             [(subject +:+ " latest trends news " +:+ str_of_Z y, max_results, a1);
              ("site:reddit.com " +:+ subject
               +:+ " 'struggling with' OR 'hate' OR 'hard to' OR 'problem with'",
               max_results, a2);
              (subject +:+ " how to fix OR alternative to OR best solution for",
               max_results, a3)]
         ∧ trend_results data = bucket_of a1
         ∧ problem_results data = bucket_of a2
         ∧ question_results data = bucket_of a3
         ∧ (∀ e, a1 = Raised e → trend_results data = [])
         ∧ (∀ e, a2 = Raised e → problem_results data = [])
         ∧ (∀ e, a3 = Raised e → question_results data = [])).
Proof.
  split.
  - intros query tr e Hcall He.
    unfold _execute_search, try_except, bind, logger, emit, tavily_search, call.
    cbn beta iota zeta. rewrite Hcall. cbn beta iota. rewrite He.
    unfold ret. by rewrite <- !(assoc_L (++)).
  - intros subject dir save tr Htav Hgem Hfs.
    destruct (research clock os_path_join json_dumps file_system self subject dir
                max_results save tr) as [out tr'] eqn:Erun.
    pose proof (research_returned _ _ _ _ _ _ _ _ Erun) as Hpost.
    destruct out as [data|e]; simpl in Hpost.
    + destruct Hpost as (y & a1 & a2 & a3 & Hs & _ & H1 & H2 & H3 & _).
      exists data, tr', y, a1, a2, a3. repeat (split; [done|]).
      rewrite H1, H2, H3. by repeat split; intros ? ->.
    + exfalso. destruct Hpost as [[He [(t & q & E)|(t & c & E)]]|[-> (t & p & x & E)]].
      * apply Htav in E. congruence.
      * apply Hgem in E. congruence.
      * destruct Hfs as [?|Hfs]; [done|]. by rewrite Hfs in E.
Qed.

(** C2. When the call to the LLM provider raises an [Exception],
    [_analyze_with_llm] logs the error and returns, instead of raising, a
    non-empty message in which the text of the failure occurs. *)
Theorem analyze_with_llm_recovers_from_provider_failure self normalized subject tr e :
  gemini_client self
    (tr ++ [EvLog INFO ("LLM analizi başlatılıyor (" +:+ model self +:+ ")...")])
    (model self) (prompt_of normalized subject) = Raised e →
  is_Exception e = true →
  let message := "Analiz sırasında bir hata oluştu: " +:+ exc_str e in
  _analyze_with_llm self normalized subject tr
  = (Returned message,
     tr ++ [EvLog INFO ("LLM analizi başlatılıyor (" +:+ model self +:+ ")...");
            EvGenerateContent (model self) (prompt_of normalized subject) (Raised e);
            EvLog ERROR ("LLM analiz hatası: " +:+ exc_str e)])
  ∧ message ≠ ""
  ∧ occurs_in (exc_str e) message.
Proof.
  intros Hcall He. cbv zeta. split; [|split].
  - unfold _analyze_with_llm, try_except, bind, logger, emit, generate_content, call.
    cbn beta iota zeta. rewrite Hcall. cbn beta iota. rewrite He.
    unfold ret. by rewrite <- !(assoc_L (++)).
  - discriminate.
  - exists "Analiz sırasında bir hata oluştu: ", "". by rewrite str_app_nil_r.
Qed.

(** C3. In a run of [research] that returns a record: when the
    normalised content strips to the empty string, which is the case when
    the three buckets are empty, the analysis is the fixed message and the
    LLM provider was not called; otherwise the LLM provider was called
    exactly once, with the prompt made of this content and the topic, and
    the analysis is made of its answer. *)
Theorem research_short_circuits_on_blank_content self subject dir n save tr data tr' :
  research clock os_path_join json_dumps file_system self subject dir n save tr
  = (Returned data, tr') →
  let normalized := _prepare_content_for_analysis data in
  (strip normalized = "" →
     analysis data = "Üzgünüz, bu konu hakkında yeterli veri bulunamadı."
     ∧ generations tr' = generations tr)
  ∧ (strip normalized ≠ "" →
     ∃ g, generations tr' = generations tr ++ [(model self, prompt_of normalized subject, g)]
          ∧ analysis data = analysis_of g)
  ∧ (trend_results data = [] ∧ problem_results data = [] ∧ question_results data = []
     → strip normalized = "").
Proof.
  intros Erun. cbv zeta.
  pose proof (research_returned _ _ _ _ _ _ _ _ Erun) as Hpost. simpl in Hpost.
  destruct Hpost as (y & a1 & a2 & a3 & _ & _ & _ & _ & _ & _ & Han).
  split; [|split].
  - intros Hblank. rewrite bool_decide_eq_true_2 in Han by done. by destruct Han as (? & ? & _).
  - intros Hnb. rewrite bool_decide_eq_false_2 in Han by done.
    destruct Han as (g & ? & ? & _). by exists g.
  - intros H. rewrite prepare_content_normalize. by apply normalize_blank_iff.
Qed.

(** C9. A successful call of [_execute_search] returns one result per
    item of the provider's list, in the provider's order, nothing dropped,
    merged or moved; and the record [research] returns, after all its
    stages, holds for each intent the bucket made of the provider's answer
    to that intent's query. *)
Theorem buckets_keep_provider_order self n :
  (∀ query tr response items,
     tavily_client self
       (tr ++ [EvLog INFO ("Tavily araması yapılıyor: '" +:+ slice_to 50 query +:+ "...'")])
       query "advanced" n false = Returned response →
     results response = Some items →
     (∀ item, item ∈ items → ∃ t u c s, item = ItemDict t u c s) →
     ∃ rs tr',
       _execute_search self query n tr = (Returned rs, tr')
       ∧ rs = bucket_of (Returned response)
       ∧ Forall2 (λ item r, ∃ t u c s, item = ItemDict t u c s ∧ r = result_of_fields t u c s)
           items rs)
  ∧ (∀ subject dir save tr data tr',
       research clock os_path_join json_dumps file_system self subject dir n save tr
       = (Returned data, tr') →
       ∃ y a1 a2 a3,
         searches tr' = searches tr ++
           [(subject +:+ " latest trends news " +:+ str_of_Z y, n, a1);
            ("site:reddit.com " +:+ subject
             +:+ " 'struggling with' OR 'hate' OR 'hard to' OR 'problem with'", n, a2);
            (subject +:+ " how to fix OR alternative to OR best solution for", n, a3)]
         ∧ trend_results data = bucket_of a1
         ∧ problem_results data = bucket_of a2
         ∧ question_results data = bucket_of a3).
Proof.
  split.
  - intros query tr response items Hcall Hitems Hdicts.
    destruct (results_of_items_Forall2 items Hdicts) as (rs & Ers & HF).
    exists rs. eexists. split; [|split; [|exact HF]].
    + pose proof (for_each_items items []
        ((tr ++ [EvLog INFO ("Tavily araması yapılıyor: '" +:+ slice_to 50 query +:+ "...'")])
         ++ [EvSearch query "advanced" n false (Returned response)])) as Hloop.
      cbn zeta in Hloop. rewrite Ers in Hloop. unfold bind in Hloop.
      unfold _execute_search, try_except, bind, logger, emit, tavily_search, call.
      cbn beta iota zeta. rewrite Hcall. cbn beta iota. rewrite Hitems.
      simpl default. rewrite Hloop. cbn. reflexivity.
    + simpl. rewrite Hitems. simpl. by rewrite Ers.
  - intros subject dir save tr data tr' Erun.
    pose proof (research_returned _ _ _ _ _ _ _ _ Erun) as Hpost. simpl in Hpost.
    destruct Hpost as (y & a1 & a2 & a3 & Hs & _ & H1 & H2 & H3 & _).
    by exists y, a1, a2, a3.
Qed.

(** C10 (as amended).  The normalised content strips to the empty string
    exactly when the three buckets are empty, whatever the titles, urls
    and contents of the results are.  So, in a run of [research] that
    returns a record, the fallback is taken (the warning is logged, the
    LLM provider is not called, the analysis is the fixed message)
    exactly when the three buckets are empty; otherwise the LLM provider
    is called once, on the content, and the analysis is what is made of
    its answer.  The analysis is the fixed message exactly when the
    buckets are empty or the LLM step itself came back with that
    text. *)
Theorem fallback_iff_all_buckets_empty self subject dir n save :
  (∀ data,
     strip (_prepare_content_for_analysis data) = ""
     ↔ trend_results data = [] ∧ problem_results data = [] ∧ question_results data = [])
  ∧ (∀ tr data tr',
       research clock os_path_join json_dumps file_system self subject dir n save tr
       = (Returned data, tr') →
       let empty := trend_results data = [] ∧ problem_results data = []
                    ∧ question_results data = [] in
       (empty ↔ generations tr' = generations tr)
       ∧ (empty ↔ warnings tr' = warnings tr ++ ["Analiz için yeterli içerik bulunamadı."])
       ∧ (empty → analysis data = "Üzgünüz, bu konu hakkında yeterli veri bulunamadı.")
       ∧ (¬ empty →
          ∃ g, generations tr' = generations tr ++
                 [(model self, prompt_of (_prepare_content_for_analysis data) subject, g)]
               ∧ analysis data = analysis_of g)
       ∧ (analysis data = "Üzgünüz, bu konu hakkında yeterli veri bulunamadı."
          ↔ empty
            ∨ ∃ g, generations tr' = generations tr ++
                     [(model self, prompt_of (_prepare_content_for_analysis data) subject, g)]
                   ∧ analysis_of g = "Üzgünüz, bu konu hakkında yeterli veri bulunamadı.")).
Proof.
  assert (∀ data,
     strip (_prepare_content_for_analysis data) = ""
     ↔ trend_results data = [] ∧ problem_results data = [] ∧ question_results data = [])
    as Hiff.
  { intros data. rewrite prepare_content_normalize. apply normalize_blank_iff. }
  split; [exact Hiff|].
  intros tr data tr' Erun. cbv zeta.
  pose proof (research_returned _ _ _ _ _ _ _ _ Erun) as Hpost. simpl in Hpost.
  destruct Hpost as (y & a1 & a2 & a3 & _ & _ & _ & _ & _ & _ & Han).
  rewrite <- Hiff.
  destruct (decide (strip (_prepare_content_for_analysis data) = "")) as [Hb|Hb].
  - rewrite bool_decide_eq_true_2 in Han by done. destruct Han as (Ha & Hg & Hw).
    split; [done|]. split; [done|]. split; [done|]. split; [done|].
    split; [by left|done].
  - rewrite bool_decide_eq_false_2 in Han by done. destruct Han as (g & Hg & Ha & Hw).
    assert (generations tr' ≠ generations tr) as Hne.
    { intros E. rewrite E in Hg. symmetry in Hg.
      apply (f_equal length) in Hg. rewrite length_app in Hg. simpl in Hg. lia. }
    split; [done|]. split.
    { split; [done|]. intros E. rewrite E in Hw. symmetry in Hw.
      apply (f_equal length) in Hw. rewrite length_app in Hw. simpl in Hw. lia. }
    split; [done|]. split; [intros _; by exists g|].
    split.
    + intros E. right. exists g. split; [exact Hg|]. by rewrite <- Ha.
    + intros [Hempty|(g' & Hg' & E)]; [done|].
      rewrite Hg in Hg'. apply app_inv_head in Hg'. injection Hg' as ->.
      by rewrite Ha.
Qed.

(** C10, as stated, fails: the fixed message is also the analysis of a
    record with results, when the LLM provider answers with that very
    text.  The run below has two trend results and three question
    results, calls the LLM provider once and logs no warning, and its
    analysis is the fixed message: the analysis alone does not tell
    whether the buckets were empty. *)
Lemma fallback_message_despite_results :
  let fixed := "Üzgünüz, bu konu hakkında yeterli veri bulunamadı." in
  (∃ data tr',
     Faults.run_fallback_text = (Returned data, tr')
     ∧ trend_results data = [Scenario.result 1; Scenario.result 2]
     ∧ question_results data = [Scenario.result 3; Scenario.result 4; Scenario.result 5]
     ∧ length (generations tr') = 1%nat
     ∧ warnings tr' = []
     ∧ analysis data = fixed)
  ∧ ¬ (∀ self subject dir n save tr data tr',
         research Scenario.clock Scenario.os_path_join Scenario.json_dumps
           Scenario.file_system self subject dir n save tr = (Returned data, tr') →
         (analysis data = fixed
          ↔ trend_results data = [] ∧ problem_results data = []
            ∧ question_results data = [])).
Proof.
  cbv zeta.
  assert (Faults.run_fallback_text
          = (Returned (set_analysis "Üzgünüz, bu konu hakkında yeterli veri bulunamadı."
                         Scenario.record),
             Faults.run_fallback_text.2)) as Erun by (vm_compute; reflexivity).
  split.
  - eexists _, _. split; [exact Erun|].
    repeat split; vm_compute; reflexivity.
  - intros H. apply H in Erun. destruct Erun as [Hfixed _].
    destruct (Hfixed eq_refl) as (Hempty & _). discriminate Hempty.
Qed.

End Properties.

(** ** The properties on the scenario *)

Lemma scenario_tavily_raises_exceptions t q e :
  tavily_client Scenario.agent t q "advanced" 10 false = Raised e -> is_Exception e = true.
Proof.
  unfold Scenario.agent, Scenario.tavily. simpl.
  destruct (length (searches t)) as [|[|k]]; [discriminate| |discriminate].
  by intros [= <-].
Defined.

Lemma execute_search_recovers_from_provider_failure_witness :
  _execute_search Scenario.agent_search_down "home coffee roasting latest trends news 2025" 10 []
  = (Returned [],
     [EvLog INFO "Tavily araması yapılıyor: 'home coffee roasting latest trends news 2025...'";
      EvSearch "home coffee roasting latest trends news 2025" "advanced" 10 false
        (Raised (mkPyExc true "connection timed out"));
      EvLog ERROR "Tavily arama hatası: connection timed out"])
  ∧ ∃ data tr' y a1 a2 a3,
      Scenario.run Scenario.agent = (Returned data, tr')
      ∧ searches tr' = searches [] ++
          [("home coffee roasting" +:+ " latest trends news " +:+ str_of_Z y, 10, a1);
           ("site:reddit.com " +:+ "home coffee roasting"
            +:+ " 'struggling with' OR 'hate' OR 'hard to' OR 'problem with'", 10, a2);
           ("home coffee roasting" +:+ " how to fix OR alternative to OR best solution for",
            10, a3)]
      ∧ trend_results data = bucket_of a1
      ∧ problem_results data = bucket_of a2
      ∧ question_results data = bucket_of a3
      ∧ (∀ e, a1 = Raised e → trend_results data = [])
      ∧ (∀ e, a2 = Raised e → problem_results data = [])
      ∧ (∀ e, a3 = Raised e → question_results data = []).
Proof.
  split.
  - apply (proj1 (execute_search_recovers_from_provider_failure
                    Scenario.clock Scenario.os_path_join Scenario.json_dumps
                    Scenario.file_system Scenario.agent_search_down 10)
             "home coffee roasting latest trends news 2025" []
             (mkPyExc true "connection timed out")); reflexivity.
  - apply (proj2 (execute_search_recovers_from_provider_failure
                    Scenario.clock Scenario.os_path_join Scenario.json_dumps
                    Scenario.file_system Scenario.agent 10)
             "home coffee roasting" "." true []).
    + exact scenario_tavily_raises_exceptions.
    + intros t c e. discriminate.
    + right. reflexivity.
Defined.

Lemma analyze_with_llm_recovers_from_provider_failure_witness :
  let e := mkPyExc true "quota exhausted" in
  let message := "Analiz sırasında bir hata oluştu: quota exhausted" in
  _analyze_with_llm Scenario.agent_llm_down "=== TREND VE HABER SONUÇLARI ===" "home coffee roasting" []
  = (Returned message,
     [EvLog INFO "LLM analizi başlatılıyor (gemini-2.5-flash)...";
      EvGenerateContent "gemini-2.5-flash"
        (prompt_of "=== TREND VE HABER SONUÇLARI ===" "home coffee roasting") (Raised e);
      EvLog ERROR "LLM analiz hatası: quota exhausted"])
  ∧ message ≠ ""
  ∧ occurs_in "quota exhausted" message.
Proof.
  apply (analyze_with_llm_recovers_from_provider_failure Scenario.agent_llm_down
           "=== TREND VE HABER SONUÇLARI ===" "home coffee roasting" []
           (mkPyExc true "quota exhausted")); reflexivity.
Defined.

Lemma research_short_circuits_on_blank_content_witness :
  let data := Scenario.record in
  let tr' := (Scenario.run Scenario.agent).2 in
  let normalized := _prepare_content_for_analysis data in
  Scenario.run Scenario.agent = (Returned data, tr')
  ∧ (strip normalized = "" →
       analysis data = "Üzgünüz, bu konu hakkında yeterli veri bulunamadı."
       ∧ generations tr' = generations [])
  ∧ (strip normalized ≠ "" →
       ∃ g, generations tr' = generations [] ++
              [(model Scenario.agent, prompt_of normalized "home coffee roasting", g)]
            ∧ analysis data = analysis_of g)
  ∧ (trend_results data = [] ∧ problem_results data = [] ∧ question_results data = []
     → strip normalized = "").
Proof.
  cbv zeta.
  assert (Scenario.run Scenario.agent
          = (Returned Scenario.record, (Scenario.run Scenario.agent).2)) as Erun
    by (vm_compute; reflexivity).
  split; [exact Erun|].
  exact (research_short_circuits_on_blank_content
           Scenario.clock Scenario.os_path_join Scenario.json_dumps Scenario.file_system
           Scenario.agent "home coffee roasting" "." 10 true [] Scenario.record
           (Scenario.run Scenario.agent).2 Erun).
Defined.

Lemma buckets_keep_provider_order_witness :
  let response := mkSearchResponse (Some [Scenario.hit 1; Scenario.hit 2]) in
  (∃ rs tr',
     _execute_search Scenario.agent "home coffee roasting latest trends news 2025" 10 []
     = (Returned rs, tr')
     ∧ rs = bucket_of (Returned response)
     ∧ Forall2 (λ item r, ∃ t u c s, item = ItemDict t u c s ∧ r = result_of_fields t u c s)
         [Scenario.hit 1; Scenario.hit 2] rs)
  ∧ ∃ y a1 a2 a3,
      searches (Scenario.run Scenario.agent).2 = searches [] ++
        [("home coffee roasting" +:+ " latest trends news " +:+ str_of_Z y, 10, a1);
         ("site:reddit.com " +:+ "home coffee roasting"
          +:+ " 'struggling with' OR 'hate' OR 'hard to' OR 'problem with'", 10, a2);
         ("home coffee roasting" +:+ " how to fix OR alternative to OR best solution for",
          10, a3)]
      ∧ trend_results Scenario.record = bucket_of a1
      ∧ problem_results Scenario.record = bucket_of a2
      ∧ question_results Scenario.record = bucket_of a3.
Proof.
  cbv zeta. split.
  - apply (proj1 (buckets_keep_provider_order
                    Scenario.clock Scenario.os_path_join Scenario.json_dumps
                    Scenario.file_system Scenario.agent 10)
             "home coffee roasting latest trends news 2025" []
             (mkSearchResponse (Some [Scenario.hit 1; Scenario.hit 2]))
             [Scenario.hit 1; Scenario.hit 2]); [reflexivity..|].
    intros item Hitem. unfold Scenario.hit in Hitem.
    apply elem_of_cons in Hitem as [->|Hitem]; [by eexists _, _, _, _|].
    apply list_elem_of_singleton in Hitem as ->. by eexists _, _, _, _.
  - apply (proj2 (buckets_keep_provider_order
                    Scenario.clock Scenario.os_path_join Scenario.json_dumps
                    Scenario.file_system Scenario.agent 10)
             "home coffee roasting" "." true [] Scenario.record
             (Scenario.run Scenario.agent).2).
    vm_compute; reflexivity.
Defined.

Lemma fallback_iff_all_buckets_empty_witness :
  let fixed := "Üzgünüz, bu konu hakkında yeterli veri bulunamadı." in
  let nothing := mkResearchData "home coffee roasting" "2025-06-01 12:00:00" [] [] []
                   fixed ∅ in
  let tr0 := (Scenario.run Scenario.agent_search_down).2 in
  let tr1 := (Scenario.run Scenario.agent).2 in
  (Scenario.run Scenario.agent_search_down = (Returned nothing, tr0)
   ∧ generations tr0 = generations []
   ∧ warnings tr0 = warnings [] ++ ["Analiz için yeterli içerik bulunamadı."]
   ∧ analysis nothing = fixed)
  ∧ (Scenario.run Scenario.agent = (Returned Scenario.record, tr1)
     ∧ trend_results Scenario.record = [Scenario.result 1; Scenario.result 2]
     ∧ generations tr1 ≠ generations []
     ∧ (∃ g, generations tr1 = generations [] ++
               [(model Scenario.agent,
                 prompt_of (_prepare_content_for_analysis Scenario.record)
                   "home coffee roasting", g)]
             ∧ analysis Scenario.record = analysis_of g)
     ∧ analysis Scenario.record = "## Trends"
     ∧ analysis Scenario.record ≠ fixed).
Proof.
  cbv zeta.
  assert (Scenario.run Scenario.agent_search_down
          = (Returned (mkResearchData "home coffee roasting" "2025-06-01 12:00:00" [] [] []
                         "Üzgünüz, bu konu hakkında yeterli veri bulunamadı." ∅),
             (Scenario.run Scenario.agent_search_down).2)) as Erun0
    by (vm_compute; reflexivity).
  assert (Scenario.run Scenario.agent
          = (Returned Scenario.record, (Scenario.run Scenario.agent).2)) as Erun1
    by (vm_compute; reflexivity).
  assert (¬ (trend_results Scenario.record = [] ∧ problem_results Scenario.record = []
             ∧ question_results Scenario.record = [])) as Hfull
    by (intros (Hempty & _); discriminate Hempty).
  split.
  - destruct (proj2 (fallback_iff_all_buckets_empty
                       Scenario.clock Scenario.os_path_join Scenario.json_dumps
                       Scenario.file_system Scenario.agent_search_down
                       "home coffee roasting" "." 10 true) [] _ _ Erun0)
      as (Hg & Hw & Ha & _).
    split; [exact Erun0|].
    split; [apply Hg; repeat split; reflexivity|].
    split; [apply Hw; repeat split; reflexivity|].
    apply Ha; repeat split; reflexivity.
  - destruct (proj2 (fallback_iff_all_buckets_empty
                       Scenario.clock Scenario.os_path_join Scenario.json_dumps
                       Scenario.file_system Scenario.agent
                       "home coffee roasting" "." 10 true) [] _ _ Erun1)
      as (Hg & _ & _ & Hllm & Hfixed).
    split; [exact Erun1|]. split; [reflexivity|].
    split; [intros E; apply Hfull, Hg, E|].
    split; [exact (Hllm Hfull)|].
    split; [reflexivity|].
    intros E. discriminate E.
Defined.

Lemma prepare_content_sections_witness :
  _prepare_content_for_analysis (new_ResearchData "home coffee roasting" "2025-06-01 12:00:00")
  = "".
Proof.
  apply (proj2 (proj2 (proj2 (proj2 (prepare_content_sections
           (new_ResearchData "home coffee roasting" "2025-06-01 12:00:00")))))).
  repeat split.
Defined.

Lemma format_url_list_placeholder_or_links_witness :
  _format_url_list [Scenario.result 1; Scenario.result 2]
  = join LF (map (λ r, "- [" +:+ title r +:+ "](" +:+ url r +:+ ")")
               [Scenario.result 1; Scenario.result 2]).
Proof.
  apply (proj1 (proj2 (format_url_list_placeholder_or_links Scenario.record))).
  discriminate.
Defined.

Lemma totals_are_sum_of_bucket_lengths_witness :
  let data := new_ResearchData "home coffee roasting" "2025-06-01 12:00:00" in
  occurs_in "| **Toplam** | **0** |" (report_content data)
  ∧ ∃ metadata,
      json_data Scenario.agent data !! "metadata" = Some (PDict metadata)
      ∧ metadata !! "total_results" = Some (PInt 0).
Proof.
  apply (proj2 (proj2 (totals_are_sum_of_bucket_lengths Scenario.agent
           (new_ResearchData "home coffee roasting" "2025-06-01 12:00:00"))));
    reflexivity.
Defined.

(** * Further properties of the code *)

(** * More properties *)

(** ** One search *)

Lemma first_malformed_None items :
  first_malformed items = None <-> is_Some (results_of_items items).
Proof.
  induction items as [|[t u c s|msg] items IH]; simpl.
  - split; [by eexists|done].
  - rewrite IH. destruct (results_of_items items) as [rs|].
    + split; intros _; by eexists.
    + split; intros [? ?]; discriminate.
  - split; [done|]. by intros [].
Qed.

(** The loop of [_execute_search]: it raises with the message of the
    first item that is not a [dict], and otherwise returns one result per
    item; it adds no event. *)
Lemma for_each_items_first_malformed items acc tr :
  let body := fun results item =>
                bind (SearchResult_of_item item) (fun r => ret (results ++ [r])) in
  match first_malformed items with
  | Some msg => for_each items body acc tr = (Raised (AttributeError msg), tr)
  | None => exists rs, results_of_items items = Some rs
                       /\ for_each items body acc tr = (Returned (acc ++ rs), tr)
  end.
Proof.
  intros body. revert acc. induction items as [|[t u c s|msg] items IH]; intros acc; simpl.
  - exists []. by rewrite app_nil_r.
  - specialize (IH (acc ++ [result_of_fields t u c s])).
    unfold result_of_fields in IH |- *.
    destruct (first_malformed items) as [msg|].
    + unfold bind at 1. simpl. exact IH.
    + destruct IH as (rs & -> & IH). eexists. split; [reflexivity|].
      unfold bind at 1. simpl. rewrite IH. by rewrite <- (assoc_L (++)).
  - reflexivity.
Qed.

(** What [_execute_search] returns and does, for every answer of the
    provider. *)
Lemma execute_search_run self query n tr :
  let a := tavily_client self
             (tr ++ [EvLog INFO ("Tavily araması yapılıyor: '" +:+ slice_to 50 query +:+ "...'")])
             query "advanced" n false in
  _execute_search self query n tr = (search_outcome a, tr ++ search_events query n a).
Proof.
  cbv zeta. unfold _execute_search, try_except, bind, logger, emit, tavily_search, call.
  cbn beta iota zeta. unfold search_events.
  set (t := tr ++ [EvLog INFO _]).
  destruct (tavily_client self t query "advanced" n false) as [response|e] eqn:Ea;
    cbn beta iota.
  - pose proof (for_each_items_first_malformed (default [] (results response)) []
                  (t ++ [EvSearch query "advanced" n false (Returned response)])) as Hloop.
    cbn zeta in Hloop. unfold bind in Hloop.
    unfold search_outcome, bucket_of.
    destruct (first_malformed (default [] (results response))) as [msg|] eqn:Em.
    + rewrite Hloop. cbn.
      assert (results_of_items (default [] (results response)) = None) as ->.
      { apply eq_None_not_Some. intros H. apply first_malformed_None in H. congruence. }
      subst t. by rewrite <- !(assoc_L (++)).
    + destruct Hloop as (rs & -> & Hloop). rewrite Hloop. cbn.
      subst t. by rewrite <- !(assoc_L (++)).
  - unfold search_outcome. destruct (is_Exception e); cbn; subst t;
      by rewrite <- !(assoc_L (++)), ?app_nil_r.
Qed.

Lemma first_malformed_app good msg rest :
  (forall item, item ∈ good -> exists t u c s, item = ItemDict t u c s) ->
  first_malformed (good ++ ItemMalformed msg :: rest) = Some msg.
Proof.
  induction good as [|item good IH]; intros H; [reflexivity|].
  destruct (H item) as (t & u & c & s & ->); [by left|].
  simpl. apply IH. intros i Hi. apply H. by right.
Qed.

(** X1. When an item of the provider's list is not a [dict], the whole
    search is given up: [_execute_search] returns the empty list, also
    when items before the bad one were converted, and logs the error of
    the bad item. *)
Theorem execute_search_discards_partial_results self query n tr response good msg rest :
  tavily_client self
    (tr ++ [EvLog INFO ("Tavily araması yapılıyor: '" +:+ slice_to 50 query +:+ "...'")])
    query "advanced" n false = Returned response ->
  results response = Some (good ++ ItemMalformed msg :: rest) ->
  (forall item, item ∈ good -> exists t u c s, item = ItemDict t u c s) ->
  _execute_search self query n tr
  = (Returned [],
     tr ++ [EvLog INFO ("Tavily araması yapılıyor: '" +:+ slice_to 50 query +:+ "...'");
            EvSearch query "advanced" n false (Returned response);
            EvLog ERROR ("Tavily arama hatası: " +:+ msg)]).
Proof.
  intros Hcall Hres Hgood.
  pose proof (execute_search_run self query n tr) as Hrun. cbv zeta in Hrun.
  rewrite Hcall in Hrun. rewrite Hrun. clear Hrun.
  pose proof (first_malformed_app good msg rest Hgood) as Hm.
  unfold search_events, search_outcome, bucket_of. rewrite Hres. simpl default.
  rewrite Hm.
  assert (results_of_items (good ++ ItemMalformed msg :: rest) = None) as ->.
  { apply eq_None_not_Some. intros H. apply first_malformed_None in H. congruence. }
  reflexivity.
Qed.

(** X2. A response without a "results" key, or with an empty list, is a
    successful search with no result: [_execute_search] returns the empty
    list and logs the count 0 at level INFO, not an error. *)
Theorem execute_search_without_results self query n tr response :
  tavily_client self
    (tr ++ [EvLog INFO ("Tavily araması yapılıyor: '" +:+ slice_to 50 query +:+ "...'")])
    query "advanced" n false = Returned response ->
  results response = None \/ results response = Some [] ->
  _execute_search self query n tr
  = (Returned [],
     tr ++ [EvLog INFO ("Tavily araması yapılıyor: '" +:+ slice_to 50 query +:+ "...'");
            EvSearch query "advanced" n false (Returned response);
            EvLog INFO "  → 0 sonuç bulundu."]).
Proof.
  intros Hcall Hres.
  pose proof (execute_search_run self query n tr) as Hrun. cbv zeta in Hrun.
  rewrite Hcall in Hrun. rewrite Hrun. clear Hrun.
  unfold search_events, search_outcome, bucket_of.
  destruct Hres as [-> | ->]; reflexivity.
Qed.

Lemma search_events_requests query n a :
  search_requests (search_events query n a) = [(query, "advanced", n, false)].
Proof.
  unfold search_events. destruct a as [response|e]; simpl.
  - by destruct (first_malformed _).
  - by destruct (is_Exception e).
Qed.

Lemma search_events_others query n a :
  generations (search_events query n a) = []
  /\ writes (search_events query n a) = []
  /\ prints (search_events query n a) = []
  /\ warnings (search_events query n a) = []
  /\ searches (search_events query n a) = [(query, n, a)].
Proof.
  unfold search_events. destruct a as [response|e]; simpl.
  - by destruct (first_malformed _).
  - by destruct (is_Exception e).
Qed.

(** X3. Whatever the provider answers, one [_execute_search] sends
    exactly one request, for the given query and result bound, with search
    depth "advanced" and without raw content; it calls no LLM, writes no
    file and prints nothing. *)
Theorem execute_search_sends_one_request self query n tr :
  let tr' := (_execute_search self query n tr).2 in
  search_requests tr' = search_requests tr ++ [(query, "advanced", n, false)]
  /\ generations tr' = generations tr
  /\ writes tr' = writes tr
  /\ prints tr' = prints tr.
Proof.
  cbv zeta. pose proof (execute_search_run self query n tr) as Hrun. cbv zeta in Hrun.
  rewrite Hrun. simpl snd.
  unfold search_requests at 1, generations at 1, writes at 1, prints at 1.
  rewrite !flat_map_app.
  fold (search_requests tr) (generations tr) (writes tr) (prints tr).
  match goal with
  | |- context [search_events query n ?a] =>
      pose proof (search_events_requests query n a) as Hr;
      destruct (search_events_others query n a) as (Hg & Hw & Hp & _)
  end.
  unfold search_requests in Hr. unfold generations in Hg. unfold writes in Hw.
  unfold prints in Hp. rewrite Hr, Hg, Hw, Hp. by rewrite !app_nil_r.
Qed.

(** X4. What the provider raises and is not an [Exception] (a keyboard
    interrupt, a system exit) is not caught: [_execute_search] raises it
    and logs no error. *)
Theorem execute_search_lets_non_exceptions_through self query n tr e :
  tavily_client self
    (tr ++ [EvLog INFO ("Tavily araması yapılıyor: '" +:+ slice_to 50 query +:+ "...'")])
    query "advanced" n false = Raised e ->
  is_Exception e = false ->
  _execute_search self query n tr
  = (Raised e,
     tr ++ [EvLog INFO ("Tavily araması yapılıyor: '" +:+ slice_to 50 query +:+ "...'");
            EvSearch query "advanced" n false (Raised e)]).
Proof.
  intros Hcall He.
  pose proof (execute_search_run self query n tr) as Hrun. cbv zeta in Hrun.
  rewrite Hcall in Hrun. rewrite Hrun.
  unfold search_events, search_outcome. rewrite He. by rewrite app_nil_r.
Qed.

(** ** One analysis *)

(** What [_analyze_with_llm] returns and does, for every answer of the
    provider. *)
Lemma analyze_with_llm_run self normalized subject tr :
  let a := gemini_client self
             (tr ++ [EvLog INFO ("LLM analizi başlatılıyor (" +:+ model self +:+ ")...")])
             (model self) (prompt_of normalized subject) in
  _analyze_with_llm self normalized subject tr
  = (llm_outcome a, tr ++ analyze_events (model self) (prompt_of normalized subject) a).
Proof.
  cbv zeta. unfold _analyze_with_llm, try_except, bind, logger, emit, generate_content, call.
  cbn beta iota zeta. unfold analyze_events.
  set (t := tr ++ [EvLog INFO _]).
  destruct (gemini_client self t (model self) (prompt_of normalized subject))
    as [response|e] eqn:Ea; cbn beta iota.
  - unfold llm_outcome, analysis_of.
    destruct (text response) as [txt|]; cbn; subst t; by rewrite <- !(assoc_L (++)).
  - unfold llm_outcome, analysis_of. destruct (is_Exception e); cbn; subst t;
      by rewrite <- !(assoc_L (++)), ?app_nil_r.
Qed.

(** X6. A response of the LLM provider without text is handled like a
    failure of the call: [_analyze_with_llm] returns the error message
    with the text of the attribute error, and logs it. *)
Theorem analyze_with_llm_response_without_text self normalized subject tr response :
  gemini_client self
    (tr ++ [EvLog INFO ("LLM analizi başlatılıyor (" +:+ model self +:+ ")...")])
    (model self) (prompt_of normalized subject) = Returned response ->
  text response = None ->
  _analyze_with_llm self normalized subject tr
  = (Returned ("Analiz sırasında bir hata oluştu: "
               +:+ "'NoneType' object has no attribute 'strip'"),
     tr ++ [EvLog INFO ("LLM analizi başlatılıyor (" +:+ model self +:+ ")...");
            EvGenerateContent (model self) (prompt_of normalized subject) (Returned response);
            EvLog ERROR ("LLM analiz hatası: "
                         +:+ "'NoneType' object has no attribute 'strip'")]).
Proof.
  intros Hcall Htext.
  pose proof (analyze_with_llm_run self normalized subject tr) as Hrun. cbv zeta in Hrun.
  rewrite Hcall in Hrun. rewrite Hrun.
  unfold llm_outcome, analysis_of, analyze_events. by rewrite Htext.
Qed.

(** X7. What the LLM provider raises and is not an [Exception] is not
    caught: [_analyze_with_llm] raises it and logs no error. *)
Theorem analyze_with_llm_lets_non_exceptions_through self normalized subject tr e :
  gemini_client self
    (tr ++ [EvLog INFO ("LLM analizi başlatılıyor (" +:+ model self +:+ ")...")])
    (model self) (prompt_of normalized subject) = Raised e ->
  is_Exception e = false ->
  _analyze_with_llm self normalized subject tr
  = (Raised e,
     tr ++ [EvLog INFO ("LLM analizi başlatılıyor (" +:+ model self +:+ ")...");
            EvGenerateContent (model self) (prompt_of normalized subject) (Raised e)]).
Proof.
  intros Hcall He.
  pose proof (analyze_with_llm_run self normalized subject tr) as Hrun. cbv zeta in Hrun.
  rewrite Hcall in Hrun. rewrite Hrun.
  unfold llm_outcome, analyze_events. rewrite He. by rewrite app_nil_r.
Qed.

Lemma analyze_events_others m p a :
  generations (analyze_events m p a) = [(m, p, a)]
  /\ searches (analyze_events m p a) = []
  /\ search_requests (analyze_events m p a) = []
  /\ writes (analyze_events m p a) = []
  /\ prints (analyze_events m p a) = []
  /\ warnings (analyze_events m p a) = [].
Proof.
  unfold analyze_events. destruct a as [response|e]; simpl.
  - by destruct (text response).
  - by destruct (is_Exception e).
Qed.

(** X8. Whatever the provider answers, one [_analyze_with_llm] calls the
    LLM provider exactly once, with the agent's model and the prompt made
    of the content and the topic; it sends no search request, writes no
    file and prints nothing. *)
Theorem analyze_with_llm_calls_once self normalized subject tr :
  let tr' := (_analyze_with_llm self normalized subject tr).2 in
  (exists a, generations tr'
             = generations tr ++ [(model self, prompt_of normalized subject, a)])
  /\ search_requests tr' = search_requests tr
  /\ writes tr' = writes tr
  /\ prints tr' = prints tr.
Proof.
  cbv zeta. pose proof (analyze_with_llm_run self normalized subject tr) as Hrun.
  cbv zeta in Hrun. rewrite Hrun. simpl snd.
  match goal with
  | |- context [analyze_events ?m ?p ?a] =>
      destruct (analyze_events_others m p a) as (Hg & _ & Hr & Hw & Hp & _)
  end.
  unfold generations at 1, search_requests at 1, writes at 1, prints at 1.
  rewrite !flat_map_app.
  fold (search_requests tr) (generations tr) (writes tr) (prints tr).
  unfold generations in Hg. unfold search_requests in Hr. unfold writes in Hw.
  unfold prints in Hp. rewrite Hg, Hr, Hw, Hp. rewrite !app_nil_r.
  split; [by eexists|done].
Qed.

(** ** The content and the document form, again *)

Lemma occurs_in_refl s : occurs_in s s.
Proof. exists "", "". by rewrite str_app_nil_r. Qed.

Lemma occurs_in_app_l s a b : occurs_in s a -> occurs_in s (a +:+ b).
Proof.
  intros (pre & post & ->). exists pre, (post +:+ b). by rewrite !str_app_assoc.
Qed.

Lemma occurs_in_app_r s a b : occurs_in s b -> occurs_in s (a +:+ b).
Proof.
  intros (pre & post & ->). exists (a +:+ pre), post. by rewrite !str_app_assoc.
Qed.

(** Consecutive lines of a joined text occur in it, joined. *)
Lemma join_occurs_any sep before lines after :
  lines ≠ [] -> occurs_in (join sep lines) (join sep (before ++ lines ++ after)).
Proof.
  intros Hl.
  assert (occurs_in (join sep lines) (join sep (lines ++ after))) as H1.
  { destruct after as [|x after].
    - rewrite app_nil_r. apply occurs_in_refl.
    - rewrite join_app by done. apply occurs_in_app_l, occurs_in_refl. }
  destruct before as [|x before]; [exact H1|].
  rewrite join_app; [|done|by destruct lines].
  by apply occurs_in_app_r, occurs_in_app_r.
Qed.

Lemma section_entry header label bucket k r :
  bucket !! k = Some r ->
  exists before after,
    section header label bucket = before ++ entry label (S k) r ++ after.
Proof.
  intros Hk. destruct bucket as [|r0 bucket]; [done|].
  unfold section.
  pose proof (list_lookup_imap (fun k r => entry label (S k) r) (r0 :: bucket) k) as Hi.
  rewrite Hk in Hi.
  change (imap (fun k r => entry label (S k) r) (r0 :: bucket) !! k
          = Some (entry label (S k) r)) in Hi.
  apply take_drop_middle in Hi. rewrite <- Hi.
  rewrite List.concat_app. simpl concat.
  eexists (header :: concat _), _. reflexivity.
Qed.

(** X9. Every result of every bucket is in the normalised content: for
    the result at position [k] of a bucket, the content holds, on
    consecutive lines, the label of the bucket with the index [k + 1] and
    the title, the source URL, and the content snippet. *)
Theorem prepare_content_holds_every_result data k r :
  let rendered label :=
    LF +:+ "[" +:+ label +:+ " " +:+ str_of_nat (S k) +:+ "] " +:+ title r +:+ LF +:+
    "Kaynak: " +:+ url r +:+ LF +:+
    "İçerik: " +:+ content r +:+ LF in
  (trend_results data !! k = Some r ->
     occurs_in (rendered "Trend") (_prepare_content_for_analysis data))
  /\ (problem_results data !! k = Some r ->
     occurs_in (rendered "Şikayet") (_prepare_content_for_analysis data))
  /\ (question_results data !! k = Some r ->
     occurs_in (rendered "Soru") (_prepare_content_for_analysis data)).
Proof.
  cbv zeta. rewrite prepare_content_normalize. unfold normalize.
  assert (forall label,
    LF +:+ "[" +:+ label +:+ " " +:+ str_of_nat (S k) +:+ "] " +:+ title r +:+ LF +:+
    "Kaynak: " +:+ url r +:+ LF +:+ "İçerik: " +:+ content r +:+ LF
    = join LF (entry label (S k) r)) as Hjoin.
  { intros label. unfold join, entry. simpl String.concat. by rewrite !str_app_assoc. }
  rewrite !Hjoin.
  split; [|split]; intros Hk.
  - destruct (section_entry "=== TREND VE HABER SONUÇLARI ===" "Trend" _ _ _ Hk)
      as (before & after & ->).
    rewrite <- !(assoc_L (++)). by apply join_occurs_any.
  - destruct (section_entry (LF +:+ "=== SORUN VE ŞİKAYET SONUÇLARI (Reddit/Forum) ===")
                "Şikayet" _ _ _ Hk) as (before & after & ->).
    set (s1 := section "=== TREND VE HABER SONUÇLARI ===" "Trend" (trend_results data)).
    set (s3 := section _ "Soru" (question_results data)).
    replace (s1 ++ (before ++ entry "Şikayet" (S k) r ++ after) ++ s3)
      with ((s1 ++ before) ++ entry "Şikayet" (S k) r ++ (after ++ s3))
      by (by rewrite <- !(assoc_L (++))).
    by apply join_occurs_any.
  - destruct (section_entry (LF +:+ "=== SORU VE ÇÖZÜM ARAMA SONUÇLARI ===")
                "Soru" _ _ _ Hk) as (before & after & ->).
    set (s1 := section "=== TREND VE HABER SONUÇLARI ===" "Trend" (trend_results data)).
    set (s2 := section _ "Şikayet" (problem_results data)).
    replace (s1 ++ s2 ++ before ++ entry "Soru" (S k) r ++ after)
      with ((s1 ++ s2 ++ before) ++ entry "Soru" (S k) r ++ after)
      by (by rewrite <- !(assoc_L (++))).
    by apply join_occurs_any.
Qed.

(** ** The text of the analysis *)

Lemma strip_prefix_app_more w p r x :
  strip_prefix w p = Some r -> strip_prefix w (p +:+ x) = Some (r +:+ x).
Proof.
  revert p. induction w as [|a w IH]; intros p; simpl.
  - by intros [= ->].
  - destruct p as [|b p]; [discriminate|]. rewrite str_app_cons.
    destruct (Ascii.eqb a b); [apply IH|discriminate].
Qed.

Lemma drop_one_prefix table p x :
  drop_one table (p +:+ x) = None -> drop_one table p = None.
Proof.
  induction table as [|w table IH]; [done|]. simpl.
  destruct (strip_prefix w p) as [r|] eqn:E.
  - by rewrite (strip_prefix_app_more _ _ _ x E).
  - destruct (strip_prefix w (p +:+ x)); [discriminate|]. exact IH.
Qed.

Lemma drop_while_suffix table n s : exists y, s = y +:+ drop_while table n s.
Proof.
  revert s. induction n as [|n IH]; intros s; simpl; [by exists ""|].
  destruct (drop_one table s) as [r|] eqn:E; [|by exists ""].
  destruct (drop_one_app _ _ _ E) as (w & _ & ->).
  destruct (IH r) as [y Hy]. exists (w +:+ y). rewrite str_app_assoc. by rewrite <- Hy.
Qed.

Lemma rev_app_spec s r : String.rev_app s r = String.rev s +:+ r.
Proof.
  unfold String.rev. revert r. induction s as [|a s IH]; intros r; [reflexivity|].
  simpl. rewrite (IH (String a r)), (IH (String a "")).
  by rewrite str_app_assoc.
Qed.

Lemma rev_app_distr s r : String.rev (s +:+ r) = String.rev r +:+ String.rev s.
Proof.
  induction s as [|a s IH].
  - by rewrite str_app_nil_r.
  - rewrite str_app_cons. unfold String.rev at 1 3. simpl.
    rewrite !rev_app_spec, IH. by rewrite str_app_assoc.
Qed.

Lemma rev_involutive s : String.rev (String.rev s) = s.
Proof.
  induction s as [|a s IH]; [reflexivity|].
  unfold String.rev at 2. simpl. rewrite rev_app_spec, rev_app_distr, IH. reflexivity.
Qed.

Lemma length_rev s : String.length (String.rev s) = String.length s.
Proof.
  induction s as [|a s IH]; [reflexivity|].
  unfold String.rev. simpl. rewrite rev_app_spec, str_length_app, IH. simpl. lia.
Qed.

Lemma rstrip_prefix s : exists x, s = rstrip s +:+ x.
Proof.
  unfold rstrip.
  destruct (drop_while_suffix (map String.rev whitespace_utf8) (String.length s)
              (String.rev s)) as [y Hy].
  exists (String.rev y).
  rewrite <- rev_app_distr, <- Hy. by rewrite rev_involutive.
Qed.

(** [s.strip()] neither starts nor ends with a whitespace character. *)
Lemma strip_trimmed s : ~ starts_with_space (strip s) /\ ~ ends_with_space (strip s).
Proof.
  unfold starts_with_space, ends_with_space, strip. split.
  - destruct (rstrip_prefix (lstrip s)) as [x Hx].
    pose proof (lstrip_done s) as Hd. rewrite Hx in Hd.
    apply drop_one_prefix in Hd. rewrite Hd. by intros [].
  - unfold rstrip. rewrite rev_involutive.
    rewrite drop_while_done; [by intros []| |by rewrite length_rev].
    apply Forall_forall. intros w Hin Hw. subst w. revert Hin.
    apply (bool_decide_unpack _). vm_compute. reflexivity.
Qed.

(** X5. When the LLM provider returns a text, [_analyze_with_llm]
    returns this text without the whitespace around it: the analysis
    neither starts nor ends with a whitespace character. *)
Theorem analyze_with_llm_returns_trimmed_text self normalized subject tr response t :
  gemini_client self
    (tr ++ [EvLog INFO ("LLM analizi başlatılıyor (" +:+ model self +:+ ")...")])
    (model self) (prompt_of normalized subject) = Returned response ->
  text response = Some t ->
  _analyze_with_llm self normalized subject tr
  = (Returned (strip t),
     tr ++ [EvLog INFO ("LLM analizi başlatılıyor (" +:+ model self +:+ ")...");
            EvGenerateContent (model self) (prompt_of normalized subject) (Returned response);
            EvLog INFO "LLM analizi tamamlandı."])
  /\ ~ starts_with_space (strip t)
  /\ ~ ends_with_space (strip t).
Proof.
  intros Hcall Htext. split; [|apply strip_trimmed].
  pose proof (analyze_with_llm_run self normalized subject tr) as Hrun. cbv zeta in Hrun.
  rewrite Hcall in Hrun. rewrite Hrun.
  unfold llm_outcome, analysis_of, analyze_events. by rewrite Htext.
Qed.

(** ** The document form: header and narrative *)

(** X10. The document form starts with its title, shows the topic and the
    timestamp of the record on the two lines of its header, and holds the
    analysis verbatim between two rules. *)
Theorem report_content_header_and_analysis data :
  (exists rest, report_content data = "# 🔍 Pazar Araştırma Raporu" +:+ LF +:+ rest)
  /\ occurs_in
       ("**Konu:** " +:+ topic data +:+ "  " +:+ LF +:+
        "**Tarih:** " +:+ timestamp data +:+ "  " +:+ LF)
       (report_content data)
  /\ occurs_in
       ("---" +:+ LF +:+ LF +:+ analysis data +:+ LF +:+ LF +:+ "---" +:+ LF)
       (report_content data).
Proof.
  split; [|split].
  - eexists. unfold report_content, join. simpl String.concat. reflexivity.
  - destruct (join_occurs_any LF
      ["# 🔍 Pazar Araştırma Raporu"; ""]
      ["**Konu:** " +:+ topic data +:+ "  ";
       "**Tarih:** " +:+ timestamp data +:+ "  ";
       "**Oluşturan:** Market & Trend Research Agent"]
      [""; "---"; ""; analysis data; ""; "---"; "";
       "## 📊 Araştırma İstatistikleri"; "";
       "| Kategori | Sonuç Sayısı |";
       "|----------|--------------|";
       "| Trend Sonuçları | " +:+ str_of_nat (length (trend_results data)) +:+ " |";
       "| Sorun/Şikayet Sonuçları | " +:+ str_of_nat (length (problem_results data)) +:+ " |";
       "| Soru/Çözüm Sonuçları | " +:+ str_of_nat (length (question_results data)) +:+ " |";
       "| **Toplam** | **" +:+ str_of_nat (total_results data) +:+ "** |";
       ""; "---"; ""; "## 🔗 Kaynak URL'leri"; "";
       "### Trend Kaynakları"; _format_url_list (trend_results data); "";
       "### Sorun/Şikayet Kaynakları"; _format_url_list (problem_results data); "";
       "### Soru/Çözüm Kaynakları"; _format_url_list (question_results data); "";
       "---"; "";
       "*Bu rapor, Market & Trend Research Agent tarafından otomatik olarak oluşturulmuştur.*";
       ""]) as (pre & post & E); [done|].
    exists pre, ("**Oluşturan:** Market & Trend Research Agent" +:+ post).
    etrans; [exact E|]. unfold join. simpl String.concat. by rewrite !str_app_assoc.
  - destruct (join_occurs_any LF
      ["# 🔍 Pazar Araştırma Raporu"; "";
       "**Konu:** " +:+ topic data +:+ "  ";
       "**Tarih:** " +:+ timestamp data +:+ "  ";
       "**Oluşturan:** Market & Trend Research Agent"; ""]
      ["---"; ""; analysis data; ""; "---"; ""]
      ["## 📊 Araştırma İstatistikleri"; "";
       "| Kategori | Sonuç Sayısı |";
       "|----------|--------------|";
       "| Trend Sonuçları | " +:+ str_of_nat (length (trend_results data)) +:+ " |";
       "| Sorun/Şikayet Sonuçları | " +:+ str_of_nat (length (problem_results data)) +:+ " |";
       "| Soru/Çözüm Sonuçları | " +:+ str_of_nat (length (question_results data)) +:+ " |";
       "| **Toplam** | **" +:+ str_of_nat (total_results data) +:+ "** |";
       ""; "---"; ""; "## 🔗 Kaynak URL'leri"; "";
       "### Trend Kaynakları"; _format_url_list (trend_results data); "";
       "### Sorun/Şikayet Kaynakları"; _format_url_list (problem_results data); "";
       "### Soru/Çözüm Kaynakları"; _format_url_list (question_results data); "";
       "---"; "";
       "*Bu rapor, Market & Trend Research Agent tarafından otomatik olarak oluşturulmuştur.*";
       ""]) as (pre & post & E); [done|].
    exists pre, post.
    etrans; [exact E|]. unfold join. simpl String.concat. by rewrite !str_app_assoc.
Qed.

(** ** Saving the two forms *)

Section Outputs.

Variable clock : list Event -> datetime.
Variable os_path_join : string -> string -> string.
Variable json_dumps : PyObj -> string.
Variable file_system : list Event -> string -> string -> Outcome unit.

Implicit Types (self : ResearchAgent) (tr : list Event) (data : ResearchData).

(** [_save_markdown_report] reads the clock, writes the document form
    and logs; a failed write is raised to the caller. *)
Lemma save_markdown_report_run self data dir tr :
  let now := clock tr in
  let filepath := os_path_join dir ("rapor_" +:+ strftime now "%Y%m%d_%H%M%S" +:+ ".md") in
  let written := file_system (tr ++ [EvNow now]) filepath (report_content data) in
  _save_markdown_report clock os_path_join file_system self data dir tr
  = match written with
    | Returned _ =>
        (Returned filepath,
         tr ++ [EvNow now; EvWriteFile filepath (report_content data) written;
                EvLog INFO ("Markdown raporu kaydedildi: " +:+ filepath)])
    | Raised e =>
        (Raised e, tr ++ [EvNow now; EvWriteFile filepath (report_content data) written])
    end.
Proof.
  cbv zeta. unfold _save_markdown_report, bind, datetime_now, write_file, call, logger, emit, ret.
  cbn beta iota zeta.
  destruct (file_system _ _ _) as [[]|e]; cbn beta iota; by rewrite <- !(assoc_L (++)).
Qed.

(** [_save_json_data] reads the clock, writes the data form and logs; a
    failed write is raised to the caller. *)
Lemma save_json_data_run self data dir tr :
  let now := clock tr in
  let filepath := os_path_join dir ("data_" +:+ strftime now "%Y%m%d_%H%M%S" +:+ ".json") in
  let text := json_dumps (PDict (json_data self data)) in
  let written := file_system (tr ++ [EvNow now]) filepath text in
  _save_json_data clock os_path_join json_dumps file_system self data dir tr
  = match written with
    | Returned _ =>
        (Returned filepath,
         tr ++ [EvNow now; EvWriteFile filepath text written;
                EvLog INFO ("JSON verisi kaydedildi: " +:+ filepath)])
    | Raised e => (Raised e, tr ++ [EvNow now; EvWriteFile filepath text written])
    end.
Proof.
  cbv zeta. unfold _save_json_data, bind, datetime_now, write_file, call, logger, emit, ret.
  cbn beta iota zeta.
  destruct (file_system _ _ _) as [[]|e]; cbn beta iota; by rewrite <- !(assoc_L (++)).
Qed.

Lemma print_report_run data tr :
  _print_report data tr = (Returned tt, tr ++ map EvPrint (console_report data)).
Proof.
  unfold _print_report, bind, print, emit. cbn beta iota zeta.
  unfold console_report. simpl map. by rewrite <- !(assoc_L (++)).
Qed.

(** ** What a run writes and prints *)

Lemma wp_run {A} (m : M A) tr r (Q : Outcome A -> list Event -> Prop) :
  m tr = r -> Q r.1 r.2 -> wp m tr Q.
Proof. unfold wp. by intros ->. Qed.

Lemma writes_app tr1 tr2 : writes (tr1 ++ tr2) = writes tr1 ++ writes tr2.
Proof. apply flat_map_app. Qed.

Lemma prints_app tr1 tr2 : prints (tr1 ++ tr2) = prints tr1 ++ prints tr2.
Proof. apply flat_map_app. Qed.

Lemma prints_console lines : prints (map EvPrint lines) = lines.
Proof. induction lines as [|l lines IH]; [done|]. simpl. by rewrite IH. Qed.

Lemma writes_console lines : writes (map EvPrint lines) = [].
Proof. by induction lines. Qed.


Lemma wp_mono {A} (m : M A) tr (Q Q' : Outcome A -> list Event -> Prop) :
  wp m tr Q -> (forall o tr', Q o tr' -> Q' o tr') -> wp m tr Q'.
Proof. unfold wp. auto. Qed.

(** The end of a run: the report on the console, the two files, the last
    line. *)
Lemma research_finish self data dir (save : bool) tr tr4 shown :
  writes tr4 = writes tr ->
  prints tr4 = prints tr ++ shown ->
  wp (bind (_print_report data) (fun _ =>
      bind (if save
            then
              bind (print (LF +:+ "💾 Dosyalar kaydediliyor...")) (fun _ =>
              bind (_save_markdown_report clock os_path_join file_system self data dir)
                (fun md_path =>
              bind (_save_json_data clock os_path_join json_dumps file_system self data dir)
                (fun json_path =>
              bind (print ("✅ Markdown raporu: " +:+ md_path)) (fun _ =>
              print ("✅ JSON verisi: " +:+ json_path)))))
            else ret tt) (fun _ =>
      bind (print (LF +:+ "✨ Araştırma tamamlandı!" +:+ LF)) (fun _ => ret data)))) tr4
    (fun out tr' =>
       match out with
       | Returned d =>
           d = data
           /\ exists saved,
                prints tr' = prints tr ++ shown ++ console_report data ++ saved
                               ++ [LF +:+ "✨ Araştırma tamamlandı!" +:+ LF]
                /\ if save
                   then exists t1 t2,
                          let md_path :=
                            os_path_join dir
                              ("rapor_" +:+ strftime t1 "%Y%m%d_%H%M%S" +:+ ".md") in
                          let json_path :=
                            os_path_join dir
                              ("data_" +:+ strftime t2 "%Y%m%d_%H%M%S" +:+ ".json") in
                          writes tr' = writes tr
                            ++ [(md_path, report_content data, Returned tt);
                                (json_path, json_dumps (PDict (json_data self data)),
                                 Returned tt)]
                          /\ saved = [LF +:+ "💾 Dosyalar kaydediliyor...";
                                      "✅ Markdown raporu: " +:+ md_path;
                                      "✅ JSON verisi: " +:+ json_path]
                   else writes tr' = writes tr /\ saved = []
       | Raised e =>
           writes tr' = writes tr
           \/ (save = true
               /\ exists p x,
                    writes tr' = writes tr ++ [(p, x, Raised e)]
                    \/ exists p0 x0,
                         writes tr' = writes tr ++ [(p0, x0, Returned tt); (p, x, Raised e)])
       end).
Proof.
  intros Hw Hp.
  apply wp_bind. eapply wp_run; [apply print_report_run|].
  set (tr5 := tr4 ++ _).
  assert (writes tr5 = writes tr) as Hw5
    by (subst tr5; by rewrite writes_app, writes_console, app_nil_r).
  assert (prints tr5 = prints tr ++ shown ++ console_report data) as Hp5
    by (subst tr5; by rewrite prints_app, prints_console, Hp, <- !(assoc_L (++))).
  clearbody tr5. clear Hw Hp tr4.
  destruct save.
  - unfold print. apply wp_bind. apply wp_bind, wp_emit.
    apply wp_bind.
    eapply wp_run; [apply save_markdown_report_run|]. cbv zeta.
    set (t1 := clock _). clearbody t1.
    set (md_path := os_path_join dir _).
    destruct (file_system _ md_path _) as [[]|e]; cbn [fst snd].
    2:{ right. split; [done|]. exists md_path, (report_content data). left.
        rewrite !writes_app, Hw5. simpl. by rewrite !app_nil_r. }
    apply wp_bind.
    eapply wp_run; [apply save_json_data_run|]. cbv zeta.
    set (t2 := clock _). clearbody t2.
    set (json_path := os_path_join dir _).
    destruct (file_system _ json_path _) as [[]|e]; cbn [fst snd].
    2:{ right. split; [done|].
        exists json_path, (json_dumps (PDict (json_data self data))). right.
        exists md_path, (report_content data).
        rewrite !writes_app, Hw5. simpl. by rewrite !app_nil_r, <- !(assoc_L (++)). }
    apply wp_bind, wp_emit. apply wp_emit.
    apply wp_bind, wp_emit. apply wp_ret.
    split; [done|]. eexists. split; [|exists t1, t2; cbv zeta; split; [|reflexivity]].
    + rewrite !prints_app, Hp5. simpl. rewrite !app_nil_r, <- !(assoc_L (++)). reflexivity.
    + rewrite !writes_app, Hw5. simpl. by rewrite !app_nil_r, <- !(assoc_L (++)).
  - apply wp_bind, wp_ret. unfold print. apply wp_bind, wp_emit. apply wp_ret.
    cbn [fst snd]. split; [done|]. exists []. split; [|split; [|done]].
    + rewrite !prints_app, Hp5. simpl. by rewrite <- !(assoc_L (++)).
    + rewrite !writes_app, Hw5. simpl. by rewrite !app_nil_r.
Qed.

Lemma research_io self subject dir n save tr :
  wp (research clock os_path_join json_dumps file_system self subject dir n save) tr
    (research_io_post clock os_path_join json_dumps self subject dir save tr).
Proof.
  unfold research, logger, print.
  apply wp_bind, wp_emit. apply wp_bind, wp_emit. apply wp_bind, wp_datetime_now.
  apply wp_bind. unfold _generate_queries, logger.
  apply wp_bind, wp_datetime_now. apply wp_bind, wp_emit. apply wp_ret.
  apply wp_bind, wp_emit.
  set (ts := strftime _ _).
  assert (ts = strftime
                 (clock (tr ++ [EvLog INFO ("Araştırma başlatılıyor: '" +:+ subject +:+ "'");
                                EvPrint (LF +:+ "🚀 '" +:+ subject
                                         +:+ "' konusu için araştırma başlatılıyor..." +:+ LF)]))
                 "%Y-%m-%d %H:%M:%S") as Hts
    by (subst ts; by rewrite <- (assoc_L (++))).
  clearbody ts.
  set (y := year _). clearbody y.
  set (tr0 := _ ++ [EvPrint "📡 Veri toplama aşaması..."]).
  assert (writes tr0 = writes tr) as Hw0
    by (subst tr0; rewrite !writes_app; simpl; by rewrite !app_nil_r).
  assert (prints tr0 = prints tr
            ++ [LF +:+ "🚀 '" +:+ subject +:+ "' konusu için araştırma başlatılıyor..." +:+ LF;
                "📡 Veri toplama aşaması..."]) as Hp0
    by (subst tr0; rewrite !prints_app; simpl; by rewrite !app_nil_r, <- !(assoc_L (++))).
  clearbody tr0.
  (* the three searches *)
  unfold getitem at 1. rewrite queries_dict_trend. apply wp_bind, wp_ret.
  apply wp_bind. eapply wp_run; [apply execute_search_run|]. cbv zeta. cbn [fst snd].
  set (a1 := tavily_client _ _ _ _ _ _). clearbody a1.
  set (tr1 := tr0 ++ search_events _ _ a1).
  assert (writes tr1 = writes tr /\ prints tr1 = prints tr0) as (Hw1 & Hp1).
  { subst tr1. rewrite writes_app, prints_app.
    destruct (search_events_others (subject +:+ " latest trends news " +:+ str_of_Z y) n a1)
      as (_ & -> & -> & _). by rewrite !app_nil_r. }
  clearbody tr1.
  destruct (search_outcome_cases a1) as [->|(e & -> & _)]; [|by left].
  unfold getitem at 1. rewrite queries_dict_problem. apply wp_bind, wp_ret.
  apply wp_bind. eapply wp_run; [apply execute_search_run|]. cbv zeta. cbn [fst snd].
  set (a2 := tavily_client _ _ _ _ _ _). clearbody a2.
  set (tr2 := tr1 ++ search_events _ _ a2).
  assert (writes tr2 = writes tr /\ prints tr2 = prints tr0) as (Hw2 & Hp2).
  { subst tr2. rewrite writes_app, prints_app.
    destruct (search_events_others
                ("site:reddit.com " +:+ subject
                 +:+ " 'struggling with' OR 'hate' OR 'hard to' OR 'problem with'") n a2)
      as (_ & -> & -> & _). by rewrite !app_nil_r. }
  clearbody tr2.
  destruct (search_outcome_cases a2) as [->|(e & -> & _)]; [|by left].
  unfold getitem at 1. rewrite queries_dict_question. apply wp_bind, wp_ret.
  apply wp_bind. eapply wp_run; [apply execute_search_run|]. cbv zeta. cbn [fst snd].
  set (a3 := tavily_client _ _ _ _ _ _). clearbody a3.
  set (tr3 := tr2 ++ search_events _ _ a3).
  assert (writes tr3 = writes tr /\ prints tr3 = prints tr0) as (Hw3 & Hp3).
  { subst tr3. rewrite writes_app, prints_app.
    destruct (search_events_others
                (subject +:+ " how to fix OR alternative to OR best solution for") n a3)
      as (_ & -> & -> & _). by rewrite !app_nil_r. }
  clearbody tr3.
  destruct (search_outcome_cases a3) as [->|(e & -> & _)]; [|by left].
  clear Hw0 Hw1 Hw2 Hp1 Hp2. rewrite Hp0 in Hp3. clear Hp0 tr0 tr1 tr2.
  set (data3 := set_question_results _ _).
  apply wp_bind.
  destruct (bool_decide (strip (_prepare_content_for_analysis data3) = "")) eqn:Hblank.
  - apply wp_bind, wp_emit. apply wp_ret.
    eapply wp_mono.
    { apply (research_finish self _ dir save tr _
               [LF +:+ "🚀 '" +:+ subject +:+ "' konusu için araştırma başlatılıyor..." +:+ LF;
                "📡 Veri toplama aşaması..."]).
      - rewrite writes_app, Hw3. simpl. by rewrite app_nil_r.
      - rewrite prints_app, Hp3. simpl. by rewrite app_nil_r. }
    intros [d|e] tr'; [|done].
    intros (-> & saved & Hp & Hsave). split; [done|]. exists saved.
    change (_prepare_content_for_analysis (set_analysis _ data3))
      with (_prepare_content_for_analysis data3).
    rewrite Hblank. split; [|exact Hsave].
    rewrite Hp. by rewrite <- ?(assoc_L (++)).
  - apply wp_bind, wp_emit. apply wp_bind.
    eapply wp_run; [apply analyze_with_llm_run|]. cbv zeta. cbn [fst snd].
    set (g := gemini_client _ _ _ _). clearbody g.
    set (tr4 := _ ++ analyze_events _ _ g).
    assert (writes tr4 = writes tr
            /\ prints tr4 = prints tr3 ++ ["🧠 Yapay zeka analizi yapılıyor..."]) as (Hw4 & Hp4).
    { subst tr4. rewrite !writes_app, !prints_app.
      destruct (analyze_events_others (model self)
                  (prompt_of (_prepare_content_for_analysis data3) subject) g)
        as (_ & _ & _ & -> & -> & _). simpl. by rewrite !app_nil_r. }
    clearbody tr4.
    destruct (llm_outcome_cases g) as [->|(e & -> & _)]; [|by left].
    apply wp_ret.
    eapply wp_mono.
    { apply (research_finish self _ dir save tr _
               [LF +:+ "🚀 '" +:+ subject +:+ "' konusu için araştırma başlatılıyor..." +:+ LF;
                "📡 Veri toplama aşaması..."; "🧠 Yapay zeka analizi yapılıyor..."]).
      - exact Hw4.
      - rewrite Hp4, Hp3. by rewrite <- !(assoc_L (++)). }
    intros [d|e] tr'; [|done].
    intros (-> & saved & Hp & Hsave). split; [done|]. exists saved.
    change (_prepare_content_for_analysis (set_analysis _ data3))
      with (_prepare_content_for_analysis data3).
    rewrite Hblank. split; [|exact Hsave].
    rewrite Hp. by rewrite <- ?(assoc_L (++)).
Qed.

(** X11. With [save_files] off a run of [research] writes no file,
    whether it returns or raises. *)
Theorem research_without_saving_writes_no_file self subject dir n tr :
  writes (research clock os_path_join json_dumps file_system self subject dir n false tr).2
  = writes tr.
Proof.
  pose proof (research_io self subject dir n false tr) as H. unfold wp in H.
  destruct (research _ _ _ _ _ _ _ _ _ _) as [[data|e] tr']; cbn [fst snd] in *.
  - by destruct H as (_ & saved & _ & Hw & _).
  - by destruct H as [Hw|(? & _)].
Qed.

(** X12. When a run of [research] with [save_files] on returns a record,
    it has written exactly two files, both with success: first the
    document form of the returned record to "rapor_<time>.md", then its
    serialised data form to "data_<time>.json", both in the output
    directory. *)
Theorem research_saves_both_forms_of_the_record self subject dir n tr data tr' :
  research clock os_path_join json_dumps file_system self subject dir n true tr
  = (Returned data, tr') ->
  exists t1 t2,
    writes tr' = writes tr
      ++ [(os_path_join dir ("rapor_" +:+ strftime t1 "%Y%m%d_%H%M%S" +:+ ".md"),
           report_content data, Returned tt);
          (os_path_join dir ("data_" +:+ strftime t2 "%Y%m%d_%H%M%S" +:+ ".json"),
           json_dumps (PDict (json_data self data)), Returned tt)].
Proof.
  intros E. pose proof (research_io self subject dir n true tr) as H.
  apply (wp_eq _ _ _ H) in E. destruct E as (_ & saved & _ & t1 & t2 & Hw & _).
  by exists t1, t2.
Qed.

(** X13. A file that could not be written is the last one a run of
    [research] tries to write, and the run raises what the file system
    raised: when the document form cannot be written, the data form is
    not attempted. *)
Theorem research_stops_at_failed_write self subject dir n save tr out tr' ws p x e :
  research clock os_path_join json_dumps file_system self subject dir n save tr = (out, tr') ->
  writes tr' = writes tr ++ ws ->
  In (p, x, Raised e) ws ->
  out = Raised e /\ last ws = Some (p, x, Raised e).
Proof.
  intros E Hws Hin. pose proof (research_io self subject dir n save tr) as H.
  apply (wp_eq _ _ _ H) in E. destruct out as [data|e0].
  - exfalso. destruct E as (_ & saved & _ & Hw). destruct save.
    + destruct Hw as (t1 & t2 & Hw & _). cbv zeta in Hw. rewrite Hws in Hw.
      apply app_inv_head in Hw. subst ws.
      destruct Hin as [Hin|[Hin|[]]]; discriminate.
    + destruct Hw as (Hw & _). rewrite Hws in Hw.
      rewrite <- (app_nil_r (writes tr)) in Hw at 2.
      apply app_inv_head in Hw. by subst ws.
  - destruct E as [Hw|(_ & p1 & x1 & [Hw|(p0 & x0 & Hw)])]; rewrite Hws in Hw.
    + exfalso. rewrite <- (app_nil_r (writes tr)) in Hw at 2.
      apply app_inv_head in Hw. by subst ws.
    + apply app_inv_head in Hw. subst ws.
      destruct Hin as [Hin|[]]. by inversion Hin.
    + apply app_inv_head in Hw. subst ws.
      destruct Hin as [Hin|[Hin|[]]]; [discriminate|]. by inversion Hin.
Qed.

(** X14. The timestamp of the record [research] returns is the time read
    once when the run started, after the two opening lines and before
    any search: not the time the report was finished. *)
Theorem research_timestamp_is_start_time self subject dir n save tr data tr' :
  research clock os_path_join json_dumps file_system self subject dir n save tr
  = (Returned data, tr') ->
  timestamp data
  = strftime
      (clock (tr ++ [EvLog INFO ("Araştırma başlatılıyor: '" +:+ subject +:+ "'");
                     EvPrint (LF +:+ "🚀 '" +:+ subject
                              +:+ "' konusu için araştırma başlatılıyor..." +:+ LF)]))
      "%Y-%m-%d %H:%M:%S".
Proof.
  intros E. pose proof (research_io self subject dir n save tr) as H.
  apply (wp_eq _ _ _ H) in E. by destruct E as (Hts & _).
Qed.

(** X15. What a run of [research] that returns a record shows on the
    console: the opening line, the collecting line, the analysing line
    unless the content was blank, the twelve lines of the report of the
    returned record, then, when files are saved, the saving line and the
    two paths that were written to, and the closing line. *)
Theorem research_console_shows_returned_record self subject dir n save tr data tr' :
  research clock os_path_join json_dumps file_system self subject dir n save tr
  = (Returned data, tr') ->
  exists saved,
    prints tr' = prints tr
      ++ [LF +:+ "🚀 '" +:+ subject +:+ "' konusu için araştırma başlatılıyor..." +:+ LF;
          "📡 Veri toplama aşaması..."]
      ++ (if bool_decide (strip (_prepare_content_for_analysis data) = "")
          then [] else ["🧠 Yapay zeka analizi yapılıyor..."])
      ++ console_report data
      ++ saved
      ++ [LF +:+ "✨ Araştırma tamamlandı!" +:+ LF]
    /\ if save
       then exists md_path md_text json_path json_text,
              writes tr' = writes tr ++ [(md_path, md_text, Returned tt);
                                         (json_path, json_text, Returned tt)]
              /\ saved = [LF +:+ "💾 Dosyalar kaydediliyor...";
                          "✅ Markdown raporu: " +:+ md_path;
                          "✅ JSON verisi: " +:+ json_path]
       else saved = [].
Proof.
  intros E. pose proof (research_io self subject dir n save tr) as H.
  apply (wp_eq _ _ _ H) in E. destruct E as (_ & saved & Hp & Hw).
  exists saved. split; [exact Hp|]. destruct save.
  - destruct Hw as (t1 & t2 & Hw & Hs). cbv zeta in Hw, Hs. eauto 10.
  - by destruct Hw.
Qed.

(** X17. What the search provider raises that is not an [Exception] (an
    interrupt from the keyboard) ends the run at the first search:
    [research] raises it, having made one search, no LLM call and no
    file, and having printed the two opening lines only. *)
Theorem research_interrupted_search_aborts_run self subject dir n save tr e :
  (forall t q, tavily_client self t q "advanced" n false = Raised e) ->
  is_Exception e = false ->
  exists tr',
    research clock os_path_join json_dumps file_system self subject dir n save tr
    = (Raised e, tr')
    /\ (exists q, searches tr' = searches tr ++ [(q, n, Raised e)])
    /\ generations tr' = generations tr
    /\ writes tr' = writes tr
    /\ prints tr' = prints tr
         ++ [LF +:+ "🚀 '" +:+ subject +:+ "' konusu için araştırma başlatılıyor..." +:+ LF;
             "📡 Veri toplama aşaması..."].
Proof.
  intros Ht He.
  set (Q := fun (out : Outcome ResearchData) tr' =>
              out = Raised e
              /\ (exists q, searches tr' = searches tr ++ [(q, n, Raised e)])
              /\ generations tr' = generations tr
              /\ writes tr' = writes tr
              /\ prints tr' = prints tr
                   ++ [LF +:+ "🚀 '" +:+ subject
                       +:+ "' konusu için araştırma başlatılıyor..." +:+ LF;
                       "📡 Veri toplama aşaması..."]).
  assert (wp (research clock os_path_join json_dumps file_system self subject dir n save)
            tr Q) as H.
  { unfold research, logger, print.
    apply wp_bind, wp_emit. apply wp_bind, wp_emit. apply wp_bind, wp_datetime_now.
    apply wp_bind. unfold _generate_queries, logger.
    apply wp_bind, wp_datetime_now. apply wp_bind, wp_emit. apply wp_ret.
    apply wp_bind, wp_emit.
    unfold getitem at 1. rewrite queries_dict_trend. apply wp_bind, wp_ret.
    apply wp_bind. eapply wp_run; [apply execute_search_run|]. cbv zeta.
    rewrite Ht. unfold search_outcome, search_events. rewrite He. cbn [fst snd].
    subst Q. cbv beta. split; [done|].
    rewrite !searches_app, !generations_app, !writes_app, !prints_app. simpl.
    rewrite !app_nil_r, <- !(assoc_L (++)). eauto. }
  unfold wp in H.
  destruct (research _ _ _ _ _ _ _ _ _ _) as [out tr']. cbn [fst snd] in H.
  destruct H as (-> & H). by exists tr'.
Qed.

End Outputs.

(** ** Construction of the agent *)

Section Constructing.

Variable os_getenv : string -> option string.
Variable new_TavilyClient : string -> Outcome TavilyClient.
Variable new_genai_Client : string -> Outcome GeminiClient.

Lemma falsy_false key : falsy key = false <-> exists k, key = Some k /\ k <> "".
Proof.
  destruct key as [k|]; simpl.
  - rewrite bool_decide_eq_false. split; [eauto|]. by intros (? & [= <-] & ?).
  - split; [done|]. by intros (? & ? & _).
Qed.

Lemma py_or_chosen key env k :
  (key = Some k /\ k <> "") \/ (falsy key = true /\ env = Some k /\ k <> "") ->
  py_or key env = Some k /\ falsy (py_or key env) = false.
Proof.
  unfold py_or. intros [(-> & Hk)|(-> & -> & Hk)].
  - assert (falsy (Some k) = false) as -> by (apply falsy_false; eauto). split; [done|].
    apply falsy_false; eauto.
  - split; [done|]. apply falsy_false; eauto.
Qed.

(** X18. [__init__] takes each key from its argument when that is a
    non-empty string, and from the environment when the argument is
    [None] or empty; with both keys found and both clients built, it
    returns the agent holding the model and the two clients, and logs
    one line. *)
Theorem init_uses_argument_else_environment
    tavily_api_key gemini_api_key model tr k1 k2 tavily_client gemini_client :
  (tavily_api_key = Some k1 /\ k1 <> "")
  \/ (falsy tavily_api_key = true /\ os_getenv "TAVILY_API_KEY" = Some k1 /\ k1 <> "") ->
  (gemini_api_key = Some k2 /\ k2 <> "")
  \/ (falsy gemini_api_key = true /\ os_getenv "GEMINI_API_KEY" = Some k2 /\ k2 <> "") ->
  new_TavilyClient k1 = Returned tavily_client ->
  new_genai_Client k2 = Returned gemini_client ->
  __init__ os_getenv new_TavilyClient new_genai_Client tavily_api_key gemini_api_key model tr
  = (Returned (mkResearchAgent model tavily_client gemini_client),
     tr ++ [EvLog INFO "ResearchAgent başarıyla başlatıldı."]).
Proof.
  intros H1 H2 Ht Hg.
  apply py_or_chosen in H1 as (E1 & F1). apply py_or_chosen in H2 as (E2 & F2).
  unfold __init__, _validate_api_keys, bind, construct, logger, emit, ret.
  cbv zeta. rewrite F1, F2, E1, E2. simpl. by rewrite Ht, Hg.
Qed.

(** X19. When a key is found neither in the argument nor in the
    environment (absent or empty), [__init__] raises a [ValueError]
    whose message names every key that is missing, before any client is
    built and without an event, whatever building the clients would
    do. *)
Theorem init_rejects_missing_keys tavily_api_key gemini_api_key model tr :
  let tavily_key := py_or tavily_api_key (os_getenv "TAVILY_API_KEY") in
  let gemini_key := py_or gemini_api_key (os_getenv "GEMINI_API_KEY") in
  falsy tavily_key = true \/ falsy gemini_key = true ->
  exists msg,
    __init__ os_getenv new_TavilyClient new_genai_Client tavily_api_key gemini_api_key model tr
    = (Raised (ValueError msg), tr)
    /\ (falsy tavily_key = true -> occurs_in "TAVILY_API_KEY" msg)
    /\ (falsy gemini_key = true -> occurs_in "GEMINI_API_KEY" msg).
Proof.
  cbv zeta. intros H.
  unfold __init__, _validate_api_keys, bind, raise. cbv zeta.
  destruct (falsy (py_or tavily_api_key _)) eqn:F1;
    destruct (falsy (py_or gemini_api_key _)) eqn:F2;
    [| | |by destruct H]; simpl; (eexists; split; [reflexivity|]); split; try done; intros _.
  - by exists "Eksik API anahtarları: ",
      (", GEMINI_API_KEY. Lütfen .env dosyasına ekleyin veya environment variable olarak tanımlayın.").
  - by exists "Eksik API anahtarları: TAVILY_API_KEY, ",
      (". Lütfen .env dosyasına ekleyin veya environment variable olarak tanımlayın.").
  - by exists "Eksik API anahtarları: ",
      (". Lütfen .env dosyasına ekleyin veya environment variable olarak tanımlayın.").
  - by exists "Eksik API anahtarları: ",
      (". Lütfen .env dosyasına ekleyin veya environment variable olarak tanımlayın.").
Qed.

End Constructing.

(** ** The properties on runs that go wrong *)

Lemma execute_search_discards_partial_results_witness :
  _execute_search (Faults.agent_of Faults.tavily_malformed Scenario.gemini)
    "home coffee roasting" 10 []
  = (Returned [],
     [] ++ [EvLog INFO ("Tavily araması yapılıyor: '"
                        +:+ slice_to 50 "home coffee roasting" +:+ "...'");
            EvSearch "home coffee roasting" "advanced" 10 false
              (Returned (mkSearchResponse
                           (Some ([Scenario.hit 1]
                                  ++ ItemMalformed "'str' object has no attribute 'get'"
                                  :: [Scenario.hit 2]))));
            EvLog ERROR ("Tavily arama hatası: " +:+ "'str' object has no attribute 'get'")]).
Proof.
  apply (execute_search_discards_partial_results
           (Faults.agent_of Faults.tavily_malformed Scenario.gemini)
           "home coffee roasting" 10 []
           (mkSearchResponse
              (Some ([Scenario.hit 1]
                     ++ ItemMalformed "'str' object has no attribute 'get'"
                     :: [Scenario.hit 2])))
           [Scenario.hit 1] "'str' object has no attribute 'get'" [Scenario.hit 2]).
  - reflexivity.
  - reflexivity.
  - intros item Hitem. apply list_elem_of_singleton in Hitem. subst item.
    unfold Scenario.hit. eauto.
Defined.

Lemma execute_search_without_results_witness :
  _execute_search (Faults.agent_of Faults.tavily_without_results Scenario.gemini)
    "home coffee roasting" 10 []
  = (Returned [],
     [] ++ [EvLog INFO ("Tavily araması yapılıyor: '"
                        +:+ slice_to 50 "home coffee roasting" +:+ "...'");
            EvSearch "home coffee roasting" "advanced" 10 false
              (Returned (mkSearchResponse None));
            EvLog INFO "  → 0 sonuç bulundu."]).
Proof.
  apply (execute_search_without_results
           (Faults.agent_of Faults.tavily_without_results Scenario.gemini)
           "home coffee roasting" 10 [] (mkSearchResponse None)).
  - reflexivity.
  - left. reflexivity.
Defined.

Lemma execute_search_lets_non_exceptions_through_witness :
  _execute_search (Faults.agent_of Faults.tavily_interrupted Scenario.gemini)
    "home coffee roasting" 10 []
  = (Raised Faults.KeyboardInterrupt,
     [] ++ [EvLog INFO ("Tavily araması yapılıyor: '"
                        +:+ slice_to 50 "home coffee roasting" +:+ "...'");
            EvSearch "home coffee roasting" "advanced" 10 false
              (Raised Faults.KeyboardInterrupt)]).
Proof.
  apply (execute_search_lets_non_exceptions_through
           (Faults.agent_of Faults.tavily_interrupted Scenario.gemini)
           "home coffee roasting" 10 [] Faults.KeyboardInterrupt).
  - reflexivity.
  - reflexivity.
Defined.

Lemma analyze_with_llm_returns_trimmed_text_witness :
  _analyze_with_llm Scenario.agent "content" "home coffee roasting" []
  = (Returned (strip (" ## Trends" +:+ LF)),
     [] ++ [EvLog INFO ("LLM analizi başlatılıyor (" +:+ model Scenario.agent +:+ ")...");
            EvGenerateContent (model Scenario.agent)
              (prompt_of "content" "home coffee roasting")
              (Returned (mkGenerateContentResponse (Some (" ## Trends" +:+ LF))));
            EvLog INFO "LLM analizi tamamlandı."])
  /\ ~ starts_with_space (strip (" ## Trends" +:+ LF))
  /\ ~ ends_with_space (strip (" ## Trends" +:+ LF)).
Proof.
  apply (analyze_with_llm_returns_trimmed_text Scenario.agent
           "content" "home coffee roasting" []
           (mkGenerateContentResponse (Some (" ## Trends" +:+ LF)))
           (" ## Trends" +:+ LF)).
  - reflexivity.
  - reflexivity.
Defined.

Lemma analyze_with_llm_response_without_text_witness :
  let self := Faults.agent_of Scenario.tavily Faults.gemini_without_text in
  _analyze_with_llm self "content" "home coffee roasting" []
  = (Returned ("Analiz sırasında bir hata oluştu: "
               +:+ "'NoneType' object has no attribute 'strip'"),
     [] ++ [EvLog INFO ("LLM analizi başlatılıyor (" +:+ model self +:+ ")...");
            EvGenerateContent (model self) (prompt_of "content" "home coffee roasting")
              (Returned (mkGenerateContentResponse None));
            EvLog ERROR ("LLM analiz hatası: "
                         +:+ "'NoneType' object has no attribute 'strip'")]).
Proof.
  cbv zeta.
  apply (analyze_with_llm_response_without_text
           (Faults.agent_of Scenario.tavily Faults.gemini_without_text)
           "content" "home coffee roasting" [] (mkGenerateContentResponse None)).
  - reflexivity.
  - reflexivity.
Defined.

Lemma analyze_with_llm_lets_non_exceptions_through_witness :
  let self := Faults.agent_of Scenario.tavily Faults.gemini_interrupted in
  _analyze_with_llm self "content" "home coffee roasting" []
  = (Raised Faults.KeyboardInterrupt,
     [] ++ [EvLog INFO ("LLM analizi başlatılıyor (" +:+ model self +:+ ")...");
            EvGenerateContent (model self) (prompt_of "content" "home coffee roasting")
              (Raised Faults.KeyboardInterrupt)]).
Proof.
  cbv zeta.
  apply (analyze_with_llm_lets_non_exceptions_through
           (Faults.agent_of Scenario.tavily Faults.gemini_interrupted)
           "content" "home coffee roasting" [] Faults.KeyboardInterrupt).
  - reflexivity.
  - reflexivity.
Defined.

Lemma prepare_content_holds_every_result_witness :
  trend_results Scenario.record !! 1%nat = Some (Scenario.result 2)
  /\ occurs_in
       (LF +:+ "[" +:+ "Trend" +:+ " " +:+ str_of_nat 2 +:+ "] "
        +:+ title (Scenario.result 2) +:+ LF +:+
        "Kaynak: " +:+ url (Scenario.result 2) +:+ LF +:+
        "İçerik: " +:+ content (Scenario.result 2) +:+ LF)
       (_prepare_content_for_analysis Scenario.record).
Proof.
  split; [reflexivity|].
  apply (proj1 (prepare_content_holds_every_result Scenario.record 1 (Scenario.result 2))).
  reflexivity.
Defined.

Lemma research_saves_both_forms_of_the_record_witness :
  exists t1 t2,
    writes (Scenario.run Scenario.agent).2 = writes []
      ++ [(Scenario.os_path_join "."
             ("rapor_" +:+ strftime t1 "%Y%m%d_%H%M%S" +:+ ".md"),
           report_content Scenario.record, Returned tt);
          (Scenario.os_path_join "."
             ("data_" +:+ strftime t2 "%Y%m%d_%H%M%S" +:+ ".json"),
           Scenario.json_dumps (PDict (json_data Scenario.agent Scenario.record)),
           Returned tt)].
Proof.
  assert (Scenario.run Scenario.agent
          = (Returned Scenario.record, (Scenario.run Scenario.agent).2)) as Erun
    by (vm_compute; reflexivity).
  exact (research_saves_both_forms_of_the_record
           Scenario.clock Scenario.os_path_join Scenario.json_dumps Scenario.file_system
           Scenario.agent "home coffee roasting" "." 10 [] Scenario.record
           (Scenario.run Scenario.agent).2 Erun).
Defined.

Lemma research_stops_at_failed_write_witness :
  let failed := ("./rapor_20250601_120000.md", report_content Scenario.record,
                 Raised (mkPyExc true "[Errno 28] No space left on device")) in
  writes Faults.run_disk_full.2 = writes [] ++ [failed]
  /\ Faults.run_disk_full.1 = Raised (mkPyExc true "[Errno 28] No space left on device")
  /\ last [failed] = Some failed.
Proof.
  cbv zeta.
  assert (writes Faults.run_disk_full.2
          = writes [] ++ [("./rapor_20250601_120000.md", report_content Scenario.record,
                           Raised (mkPyExc true "[Errno 28] No space left on device"))])
    as Hws by (vm_compute; reflexivity).
  split; [exact Hws|].
  apply (research_stops_at_failed_write
           Scenario.clock Scenario.os_path_join Scenario.json_dumps Faults.disk_full
           Scenario.agent "home coffee roasting" "." 10 true []
           Faults.run_disk_full.1 Faults.run_disk_full.2 _
           "./rapor_20250601_120000.md" (report_content Scenario.record)
           (mkPyExc true "[Errno 28] No space left on device")).
  - apply surjective_pairing.
  - exact Hws.
  - left. reflexivity.
Defined.

Lemma research_timestamp_is_start_time_witness :
  timestamp Scenario.record
  = strftime
      (Scenario.clock
         ([] ++ [EvLog INFO ("Araştırma başlatılıyor: '" +:+ "home coffee roasting" +:+ "'");
                 EvPrint (LF +:+ "🚀 '" +:+ "home coffee roasting"
                          +:+ "' konusu için araştırma başlatılıyor..." +:+ LF)]))
      "%Y-%m-%d %H:%M:%S".
Proof.
  assert (Scenario.run Scenario.agent
          = (Returned Scenario.record, (Scenario.run Scenario.agent).2)) as Erun
    by (vm_compute; reflexivity).
  exact (research_timestamp_is_start_time
           Scenario.clock Scenario.os_path_join Scenario.json_dumps Scenario.file_system
           Scenario.agent "home coffee roasting" "." 10 true [] Scenario.record
           (Scenario.run Scenario.agent).2 Erun).
Defined.

Lemma research_console_shows_returned_record_witness :
  let tr' := (Scenario.run Scenario.agent).2 in
  exists saved,
    prints tr' = prints []
      ++ [LF +:+ "🚀 '" +:+ "home coffee roasting"
          +:+ "' konusu için araştırma başlatılıyor..." +:+ LF;
          "📡 Veri toplama aşaması..."]
      ++ (if bool_decide (strip (_prepare_content_for_analysis Scenario.record) = "")
          then [] else ["🧠 Yapay zeka analizi yapılıyor..."])
      ++ console_report Scenario.record
      ++ saved
      ++ [LF +:+ "✨ Araştırma tamamlandı!" +:+ LF]
    /\ exists md_path md_text json_path json_text,
         writes tr' = writes [] ++ [(md_path, md_text, Returned tt);
                                    (json_path, json_text, Returned tt)]
         /\ saved = [LF +:+ "💾 Dosyalar kaydediliyor...";
                     "✅ Markdown raporu: " +:+ md_path;
                     "✅ JSON verisi: " +:+ json_path].
Proof.
  assert (Scenario.run Scenario.agent
          = (Returned Scenario.record, (Scenario.run Scenario.agent).2)) as Erun
    by (vm_compute; reflexivity).
  exact (research_console_shows_returned_record
           Scenario.clock Scenario.os_path_join Scenario.json_dumps Scenario.file_system
           Scenario.agent "home coffee roasting" "." 10 true [] Scenario.record
           (Scenario.run Scenario.agent).2 Erun).
Defined.


Lemma init_uses_argument_else_environment_witness :
  __init__ Faults.os_getenv Faults.new_TavilyClient Faults.new_genai_Client
    (Some "tavily-key") (Some "") "gemini-2.5-flash" []
  = (Returned (mkResearchAgent "gemini-2.5-flash" Scenario.tavily Scenario.gemini),
     [] ++ [EvLog INFO "ResearchAgent başarıyla başlatıldı."]).
Proof.
  apply (init_uses_argument_else_environment
           Faults.os_getenv Faults.new_TavilyClient Faults.new_genai_Client
           (Some "tavily-key") (Some "") "gemini-2.5-flash" []
           "tavily-key" "gemini-key").
  - left. split; [reflexivity|discriminate].
  - right. split; [reflexivity|]. split; [reflexivity|discriminate].
  - reflexivity.
  - reflexivity.
Defined.

Lemma init_rejects_missing_keys_witness :
  exists msg,
    __init__ Faults.os_getenv Faults.new_TavilyClient Faults.new_genai_Client
      None None "gemini-2.5-flash" []
    = (Raised (ValueError msg), [])
    /\ (falsy (py_or None (Faults.os_getenv "TAVILY_API_KEY")) = true
        -> occurs_in "TAVILY_API_KEY" msg)
    /\ (falsy (py_or None (Faults.os_getenv "GEMINI_API_KEY")) = true
        -> occurs_in "GEMINI_API_KEY" msg).
Proof.
  apply (init_rejects_missing_keys
           Faults.os_getenv Faults.new_TavilyClient Faults.new_genai_Client
           None None "gemini-2.5-flash" []).
  left. reflexivity.
Defined.

Lemma research_interrupted_search_aborts_run_witness :
  exists tr',
    research Scenario.clock Scenario.os_path_join Scenario.json_dumps Scenario.file_system
      (Faults.agent_of Faults.tavily_interrupted Scenario.gemini)
      "home coffee roasting" "." 10 true []
    = (Raised Faults.KeyboardInterrupt, tr')
    /\ (exists q, searches tr' = searches [] ++ [(q, 10, Raised Faults.KeyboardInterrupt)])
    /\ generations tr' = generations []
    /\ writes tr' = writes []
    /\ prints tr' = prints []
         ++ [LF +:+ "🚀 '" +:+ "home coffee roasting"
             +:+ "' konusu için araştırma başlatılıyor..." +:+ LF;
             "📡 Veri toplama aşaması..."].
Proof.
  apply (research_interrupted_search_aborts_run
           Scenario.clock Scenario.os_path_join Scenario.json_dumps Scenario.file_system
           (Faults.agent_of Faults.tavily_interrupted Scenario.gemini)
           "home coffee roasting" "." 10 true [] Faults.KeyboardInterrupt).
  - intros t q. reflexivity.
  - reflexivity.
Defined.
